(** * AI Invoice Analyzer: a shallow embedding of [main.py]

    The service is one FastAPI endpoint: an uploaded file is checked for its
    declared content type, read, turned into a chat-completion request (PDF
    text or a base64 data URI), the model's answer is validated against the
    [InvoiceData] schema and normalised.

    Python values are modelled as follows.
    - [str]: [string], the UTF-8 bytes of the text.
    - [bytes]: [list byte].
    - [float]: the kernel's binary64 [float]; its exact value is read through
      [Prim2SF] as sign, mantissa and exponent.
    - [dict] parsed from JSON: [gmap string json].
    - exceptions and the calls to PyMuPDF and the model client: an error and
      trace monad [M], whose trace lists the external calls in order. *)

From Stdlib Require Import ZArith String Ascii List Floats DecimalString DecimalN Lia.
From Stdlib.Strings Require Import Byte.
From stdpp Require Import base option list strings gmap.
Import ListNotations.
Local Open Scope string_scope.
Local Open Scope Z_scope.

(* Decimal literals stand for the binary64 value next to them. *)
Set Warnings "-inexact-float".

(** ** Python primitives used by the handler *)

Module Py.

Definition bytes := list byte.

(** The code points that [str.isspace] and [str.strip] take for white
    space: the controls TAB to CR and FS to US, the space, NEL, the
    no-break space and the Unicode spaces and separators. *)
Definition WHITESPACE : list N :=
  [9; 10; 11; 12; 13; 28; 29; 30; 31; 32; 133; 160; 5760;
   8192; 8193; 8194; 8195; 8196; 8197; 8198; 8199; 8200; 8201; 8202;
   8232; 8233; 8239; 8287; 12288]%N.

(** The UTF-8 bytes of a code point. *)
Definition utf8 (cp : N) : string :=
  if (cp <? 128)%N then String (ascii_of_N cp) ""
  else if (cp <? 2048)%N then
    String (ascii_of_N (192 + cp / 64))
      (String (ascii_of_N (128 + cp mod 64)) "")
  else if (cp <? 65536)%N then
    String (ascii_of_N (224 + cp / 4096))
      (String (ascii_of_N (128 + cp / 64 mod 64))
         (String (ascii_of_N (128 + cp mod 64)) ""))
  else
    String (ascii_of_N (240 + cp / 262144))
      (String (ascii_of_N (128 + cp / 4096 mod 64))
         (String (ascii_of_N (128 + cp / 64 mod 64))
            (String (ascii_of_N (128 + cp mod 64)) ""))).

(** The white-space characters as they stand in a text. *)
Definition SPACE_TOKENS : list string := map utf8 WHITESPACE.

(** [s] without its prefix [t], when it starts with [t]. *)
Fixpoint strip_prefix (t s : string) : option string :=
  match t with
  | EmptyString => Some s
  | String a t' =>
      match s with
      | EmptyString => None
      | String b s' => if Ascii.eqb a b then strip_prefix t' s' else None
      end
  end.

(** [s] without the first of [ts] it starts with. *)
Fixpoint strip_first (ts : list string) (s : string) : option string :=
  match ts with
  | [] => None
  | t :: ts' =>
      match strip_prefix t s with
      | Some r => Some r
      | None => strip_first ts' s
      end
  end.

(** Leading members of [ts] taken off [s], at most [fuel] of them. *)
Fixpoint lstrip_tokens (ts : list string) (fuel : nat) (s : string) : string :=
  match fuel with
  | O => s
  | S fuel' =>
      match strip_first ts s with
      | Some r => lstrip_tokens ts fuel' r
      | None => s
      end
  end.

(** [s.lstrip()]: a text has no more characters than bytes. *)
Definition lstrip (s : string) : string :=
  lstrip_tokens SPACE_TOKENS (String.length s) s.

(** [s.rstrip()]: the same from the end, on the reversed bytes. *)
Definition rstrip (s : string) : string :=
  String.rev (lstrip_tokens (map String.rev SPACE_TOKENS) (String.length s)
                (String.rev s)).

(** [s.strip()] *)
Definition strip (s : string) : string := rstrip (lstrip s).

(** Truth value of a [str]: only the empty string is false. *)
Definition truthy (s : string) : bool :=
  match s with EmptyString => false | _ => true end.

(** *** [format(x, '.2f')] *)

(** Nearest integer to [num / den] for [0 <= num] and [0 < den], a tie going
    to the even neighbour: the rounding of a correctly rounded conversion. *)
Definition round_half_even (num den : Z) : Z :=
  let q := num / den in
  let r := num mod den in
  match 2 * r ?= den with
  | Lt => q
  | Gt => q + 1
  | Eq => if Z.even q then q else q + 1
  end.

(** The number of hundredths nearest to [m * 2^e]. *)
Definition hundredths (m e : Z) : Z :=
  if 0 <=? e then 100 * m * 2 ^ e
  else round_half_even (100 * m) (2 ^ (- e)).

Definition decimal (n : Z) : string :=
  NilZero.string_of_uint (N.to_uint (Z.to_N n)).

Definition digit (d : Z) : ascii := ascii_of_N (Z.to_N (48 + d)).

(** The digits of [q] hundredths: integer part, point, two decimals. *)
Definition fixed2 (q : Z) : string :=
  decimal (q / 100) +:+ "." +:+
  String (digit (q / 10 mod 10)) (String (digit (q mod 10)) EmptyString).

Definition sign_prefix (s : bool) : string := if s then "-" else "".

(** [f"{x:.2f}"]: the sign bit is printed also before a zero result; the
    special values are spelled out. *)
Definition format_2f (x : float) : string :=
  match Prim2SF x with
  | S754_nan => "nan"
  | S754_infinity s => sign_prefix s +:+ "inf"
  | S754_zero s => sign_prefix s +:+ fixed2 0
  | S754_finite s m e => sign_prefix s +:+ fixed2 (hundredths (Zpos m) e)
  end.

(** [float(n)] for an integer: the nearest binary64 value. *)
Definition float_of_int (n : Z) : float :=
  SF2Prim (binary_normalize prec emax n 0 false).

(** *** [base64.b64encode(b).decode("utf-8")] *)

Definition b64_alphabet : string :=
  "ABCDEFGHIJKLMNOPQRSTUVWXYZabcdefghijklmnopqrstuvwxyz0123456789+/".

Definition b64_char (i : N) : ascii :=
  match String.get (N.to_nat i) b64_alphabet with
  | Some c => c
  | None => "="%char
  end.

Fixpoint b64encode (b : bytes) : string :=
  match b with
  | [] => ""
  | [x] =>
      let n := (Byte.to_N x * 65536)%N in
      String (b64_char (n / 262144)) (String (b64_char (n / 4096 mod 64)) "==")
  | [x; y] =>
      let n := (Byte.to_N x * 65536 + Byte.to_N y * 256)%N in
      String (b64_char (n / 262144)) (String (b64_char (n / 4096 mod 64))
        (String (b64_char (n / 64 mod 64)) "="))
  | x :: y :: z :: rest =>
      let n := (Byte.to_N x * 65536 + Byte.to_N y * 256 + Byte.to_N z)%N in
      String (b64_char (n / 262144)) (String (b64_char (n / 4096 mod 64))
        (String (b64_char (n / 64 mod 64)) (String (b64_char (n mod 64))
          (b64encode rest))))
  end.

End Py.

(** ** Response schema *)

(** [Union[str, float]] after validation: the value is one or the other. *)
Inductive amount :=
| AStr (s : string)
| AFloat (x : float).

Record InvoiceData := {
  vendor : option string;
  invoice_number : option string;
  invoice_date : option string;
  due_date : option string;
  total_amount : amount;
  currency : option string;
  valid : bool
}.

(** [isinstance(v, float)] on a validated [total_amount]. *)
Definition isinstance_float (v : amount) : bool :=
  match v with AFloat _ => true | AStr _ => false end.

(** [normalize_invoice]: the assignment to [data.total_amount] is the only
    write; the record returned is the updated argument. *)
Definition normalize_invoice (data : InvoiceData) : InvoiceData :=
  match total_amount data with
  | AFloat x =>
      {| vendor := vendor data;
         invoice_number := invoice_number data;
         invoice_date := invoice_date data;
         due_date := due_date data;
         total_amount := AStr (Py.format_2f x);
         currency := currency data;
         valid := valid data |}
  | AStr _ => data
  end.

(** ** JSON values and the validator

    [InvoiceData.model_validate_json] parses its argument and validates the
    parsed value against the schema in lax mode. The parser is the
    library's: it is a field of [externals] below. *)

#[warnings="-register-all"]
Inductive json :=
| JNull
| JBool (b : bool)
| JInt (n : Z)
| JFloat (x : float)
| JStr (s : string)
| JArray (items : list json)
| JObject (fields : gmap string json).

(** Kinds of validation error, and an error with the path of its field. *)
Inductive error_type :=
| json_invalid | json_type | model_type | missing
| string_type | float_type | bool_type | bool_parsing.

Definition line_error : Type := list string * error_type.

Definition ascii_lower (c : ascii) : ascii :=
  let n := N_of_ascii c in
  if ((65 <=? n) && (n <=? 90))%N then ascii_of_N (n + 32) else c.

Fixpoint lower (s : string) : string :=
  match s with
  | EmptyString => EmptyString
  | String c s' => String (ascii_lower c) (lower s')
  end.

Definition eq_ignore_ascii_case (s t : string) : bool :=
  String.eqb (lower s) (lower t).

(** Lax [bool] from a string. *)
Definition str_as_bool (s : string) : option bool :=
  if String.eqb s "0"
     || existsb (eq_ignore_ascii_case s) ["f"; "n"; "no"; "off"; "false"]
  then Some false
  else if String.eqb s "1"
     || existsb (eq_ignore_ascii_case s) ["t"; "y"; "on"; "yes"; "true"]
  then Some true
  else None.

(** A float with no fractional part, as an integer. *)
Definition float_as_int (x : float) : option Z :=
  match Prim2SF x with
  | S754_zero _ => Some 0
  | S754_finite s m e =>
      let v := if 0 <=? e then Some (Zpos m * 2 ^ e)
               else if Zpos m mod 2 ^ (- e) =? 0 then Some (Zpos m / 2 ^ (- e))
               else None in
      (fun n : Z => if s then - n else n) <$> v
  | _ => None
  end.

Definition int_as_bool (n : Z) : option bool :=
  if n =? 0 then Some false else if n =? 1 then Some true else None.

Definition validated (A : Type) : Type := (list line_error + A)%type.

Definition fail {A} (loc : list string) (t : error_type) : validated A :=
  inl [(loc, t)].

(** [str] *)
Definition validate_str (loc : list string) (v : json) : validated string :=
  match v with
  | JStr s => inr s
  | _ => fail loc string_type
  end.

(** [Optional[str] = default]: the default stands in for a missing key and
    is not validated; [null] is the value [None]. *)
Definition validate_optional_str (name : string) (default : option string)
    (v : option json) : validated (option string) :=
  match v with
  | None => inr default
  | Some JNull => inr None
  | Some v =>
      match validate_str [name] v with
      | inr s => inr (Some s)
      | inl e => inl e
      end
  end.

(** [float] *)
Definition validate_float (v : json) : option float :=
  match v with
  | JFloat x => Some x
  | JInt n => Some (Py.float_of_int n)
  | JBool b => Some (if b then 1 else 0)%float
  | _ => None
  end.

(** [Union[str, float]], required: a JSON string is taken as it is, before
    any conversion to [float] is tried. *)
Definition validate_total_amount (v : option json) : validated amount :=
  match v with
  | None => fail ["total_amount"] missing
  | Some (JStr s) => inr (AStr s)
  | Some v =>
      match validate_float v with
      | Some x => inr (AFloat x)
      | None => inl [(["total_amount"; "str"], string_type);
                     (["total_amount"; "float"], float_type)]
      end
  end.

(** [bool = True] *)
Definition validate_bool (name : string) (default : bool) (v : option json)
    : validated bool :=
  match v with
  | None => inr default
  | Some (JBool b) => inr b
  | Some (JStr s) =>
      match str_as_bool s with
      | Some b => inr b
      | None => fail [name] bool_parsing
      end
  | Some (JInt n) =>
      match int_as_bool n with
      | Some b => inr b
      | None => fail [name] bool_parsing
      end
  | Some (JFloat x) =>
      match float_as_int x with
      | Some n =>
          match int_as_bool n with
          | Some b => inr b
          | None => fail [name] bool_parsing
          end
      | None => fail [name] bool_type
      end
  | Some _ => fail [name] bool_type
  end.

Definition errors_of {A} (r : validated A) : list line_error :=
  match r with inl e => e | inr _ => [] end.

(** Validation of a parsed value against [InvoiceData]: keys that are no
    field are ignored, every field is validated and the errors are
    collected in the order of the fields. *)
Definition model_validate (j : json) : validated InvoiceData :=
  match j with
  | JObject o =>
      let r1 := validate_optional_str "vendor" None (o !! "vendor") in
      let r2 := validate_optional_str "invoice_number" None (o !! "invoice_number") in
      let r3 := validate_optional_str "invoice_date" None (o !! "invoice_date") in
      let r4 := validate_optional_str "due_date" None (o !! "due_date") in
      let r5 := validate_total_amount (o !! "total_amount") in
      let r6 := validate_optional_str "currency" (Some "USD") (o !! "currency") in
      let r7 := validate_bool "valid" true (o !! "valid") in
      match r1, r2, r3, r4, r5, r6, r7 with
      | inr v1, inr v2, inr v3, inr v4, inr v5, inr v6, inr v7 =>
          inr {| vendor := v1; invoice_number := v2; invoice_date := v3;
                 due_date := v4; total_amount := v5; currency := v6;
                 valid := v7 |}
      | _, _, _, _, _, _, _ =>
          inl (errors_of r1 ++ errors_of r2 ++ errors_of r3 ++ errors_of r4
               ++ errors_of r5 ++ errors_of r6 ++ errors_of r7)%list
      end
  | _ => fail [] model_type
  end.

(** The field [k] of a parsed response, when it is an object that has it. *)
Definition json_field (j : json) (k : string) : option json :=
  match j with
  | JObject o => o !! k
  | _ => None
  end.

(** ** Exceptions, external calls and their trace *)

(** The exceptions of one request. [OtherException] is any exception of a
    library (PyMuPDF, the model client, an index out of range), known by
    its message; all of them derive from [Exception]. *)
Inductive exn :=
| HTTPException (status_code : Z) (detail : string)
| ValidationError (errors : list line_error)
| OtherException (message : string).

Inductive content_part :=
| TextPart (text : string)
| ImageUrlPart (url : string).

Inductive content :=
| Text (text : string)
| Parts (parts : list content_part).

Record message := { role : string; message_content : content }.

Record ChatRequest := {
  model : string;
  messages : list message;
  temperature : Z
}.

(** A completion: [choices] holds [choice.message.content] of every choice
    returned, which the client types as an optional string. *)
Record ChatCompletion := { choices : list (option string) }.

Record UploadFile := {
  content_type : option string;
  file_contents : Py.bytes
}.

(** What the process is configured with and what it calls: the model name
    of the environment, PyMuPDF ([fitz.open] followed by [get_text] on every
    page, in page order), the chat-completion client, the JSON parser of the
    validator ([None]: a syntax error) and the text of a validation error.
    A call that raises gives the message of its exception. *)
Record externals := {
  MODEL_NAME : string;
  fitz_page_texts : Py.bytes -> string + list string;
  chat_completions_create : ChatRequest -> string + ChatCompletion;
  json_loads : string -> option json;
  validation_error_str : list line_error -> string
}.

(** The external calls of a request, as they happen. *)
Inductive event :=
| FileRead
| FitzOpen (stream : Py.bytes)
| ChatCreate (request : ChatRequest).

(** A computation: the calls it made, and an exception or a value. *)
Definition M (A : Type) : Type := (list event * (exn + A))%type.

Definition ret {A} (a : A) : M A := ([], inr a).

Definition raise {A} (e : exn) : M A := ([], inl e).

Definition bind {A B} (m : M A) (f : A -> M B) : M B :=
  match m with
  | (tr, inl e) => (tr, inl e)
  | (tr, inr a) => let '(tr', r) := f a in ((tr ++ tr')%list, r)
  end.

(** [try: body except ...: handler] *)
Definition try_except {A} (body : M A) (handler : exn -> M A) : M A :=
  match body with
  | (tr, inl e) => let '(tr', r) := handler e in ((tr ++ tr')%list, r)
  | (tr, inr a) => (tr, inr a)
  end.

Definition call {A} (ev : event) (r : string + A) : M A :=
  ([ev], match r with inl msg => inl (OtherException msg) | inr a => inr a end).

Definition trace {A} (m : M A) : list event := fst m.

Definition outcome {A} (m : M A) : exn + A := snd m.

Declare Scope M_scope.
Delimit Scope M_scope with M.
Notation "x <- m ;; k" := (bind m (fun x => k))
  (at level 100, m at next level, right associativity) : M_scope.
Local Open Scope M_scope.

(** [str(e)]; an [HTTPException] prints its status and detail. *)
Definition exn_str (ext : externals) (e : exn) : string :=
  match e with
  | HTTPException c d => Py.decimal c +:+ ": " +:+ d
  | ValidationError errs => validation_error_str ext errs
  | OtherException msg => msg
  end.

(** ** Helpers *)

Definition extract_text_from_pdf (ext : externals) (pdf_bytes : Py.bytes)
    : M string :=
  doc <- call (FitzOpen pdf_bytes) (fitz_page_texts ext pdf_bytes) ;;
  let text := fold_left (fun text page => text +:+ page) doc "" in
  ret (Py.strip text).

(** [await file.read()]: the whole content of the upload, or the
    exception of a read that fails, given by its message. *)
Definition file_read (file : UploadFile) (failure : option string)
    : M Py.bytes :=
  call FileRead (match failure with
                 | Some msg => inl msg
                 | None => inr (file_contents file)
                 end).

(** [response.choices[0].message.content] *)
Definition first_choice_content (response : ChatCompletion)
    : M (option string) :=
  match choices response !! 0%nat with
  | Some c => ret c
  | None => raise (OtherException "list index out of range")
  end.

(** [InvoiceData.model_validate_json(result)] *)
Definition model_validate_json (ext : externals) (result : option string)
    : M InvoiceData :=
  match result with
  | None => raise (ValidationError [([], json_type)])
  | Some text =>
      match json_loads ext text with
      | None => raise (ValidationError [([], json_invalid)])
      | Some j =>
          match model_validate j with
          | inl errs => raise (ValidationError errs)
          | inr invoice => ret invoice
          end
      end
  end.

(** ** The endpoint *)

(** The double quote character, for the quoted words of the prompt. *)
Definition dq : string := String (ascii_of_nat 34) EmptyString.

(** The instruction sent with every request. *)
Definition prompt : string :=
  "
You are an AI system specialized in parsing invoices and receipts from BOTH
IMAGES and PDF DOCUMENTS.

Your task:
Carefully read ALL visible or extracted text, including:
- Company / Store / Seller name
- Logo text
- Header text at the top of the document
- Footer text
- Invoice metadata blocks
- Total and payment sections

VENDOR EXTRACTION (VERY IMPORTANT):
- The vendor is the STORE / COMPANY / SELLER issuing the invoice.
- It is usually the MOST PROMINENT business name.
- It is often located at the TOP of the image or the FIRST lines of the PDF text.
- If text such as " +:+ dq +:+
  "Seller" +:+ dq +:+
  ", " +:+ dq +:+
  "Store" +:+ dq +:+
  ", " +:+ dq +:+
  "Ltd" +:+ dq +:+
  ", or similar appears,
  that MUST be returned as the vendor.
- Ignore customer names, delivery names, and payment gateways.

Extract and return ONLY valid JSON with the following fields:
- vendor (string or null)
- invoice_number (string or null)
- invoice_date (string or null, format YYYY-MM-DD if possible)
- due_date (string or null, format YYYY-MM-DD if possible)
- total_amount (string or number)
- currency (ISO 4217 code like USD, BDT, EUR if visible; otherwise null)
- valid (true or false)

Rules:
- Use null if a field is missing or not clearly visible.
- Do NOT guess values.
- Do NOT hallucinate.
- If critical fields like vendor or total_amount are missing,
  set valid to false.
- Do NOT include explanations or extra text.
- Output MUST be valid JSON ONLY.


".

Definition ALLOWED_TYPES : list string :=
  ["image/png"; "image/jpeg"; "application/pdf"].

(** [file.content_type in [...]]: equality with one of the entries; a
    missing content type equals none of them. *)
Definition content_type_allowed (file : UploadFile) : bool :=
  match content_type file with
  | Some t => existsb (String.eqb t) ALLOWED_TYPES
  | None => false
  end.

Definition is_pdf (file : UploadFile) : bool :=
  match content_type file with
  | Some t => String.eqb t "application/pdf"
  | None => false
  end.

(** The text of [{file.content_type}] inside an f-string. *)
Definition content_type_str (file : UploadFile) : string :=
  match content_type file with
  | Some t => t
  | None => "None"
  end.

Definition pdf_request (ext : externals) (extracted_text : string)
    : ChatRequest :=
  {| model := MODEL_NAME ext;
     messages :=
       [ {| role := "system";
            message_content := Text "You extract invoice data from text." |};
         {| role := "user";
            message_content :=
              Text (prompt +:+ "

INVOICE TEXT:
" +:+ extracted_text) |} ];
     temperature := 0 |}.

Definition image_request (ext : externals) (file : UploadFile)
    (encoded_image : string) : ChatRequest :=
  {| model := MODEL_NAME ext;
     messages :=
       [ {| role := "system";
            message_content := Text "You extract invoice data from images." |};
         {| role := "user";
            message_content :=
              Parts [ TextPart prompt;
                      ImageUrlPart ("data:" +:+ content_type_str file
                                    +:+ ";base64," +:+ encoded_image) ] |} ];
     temperature := 0 |}.

Definition create (ext : externals) (request : ChatRequest)
    : M ChatCompletion :=
  call (ChatCreate request) (chat_completions_create ext request).

(** The two branches of the [try] block, up to the completion. *)
Definition query_model (ext : externals) (file : UploadFile)
    (file_bytes : Py.bytes) : M ChatCompletion :=
  if is_pdf file then
    extracted_text <- extract_text_from_pdf ext file_bytes ;;
    if negb (Py.truthy extracted_text) then
      raise (HTTPException 400
               "No readable text found in PDF (possibly scanned)")
    else create ext (pdf_request ext extracted_text)
  else
    let encoded_image := Py.b64encode file_bytes in
    create ext (image_request ext file encoded_image).

(** The body of the [try] block. *)
Definition try_body (ext : externals) (file : UploadFile)
    (file_bytes : Py.bytes) : M InvoiceData :=
  response <- query_model ext file file_bytes ;;
  result <- first_choice_content response ;;
  invoice <- model_validate_json ext result ;;
  ret (normalize_invoice invoice).

(** The two [except] clauses: an [HTTPException] is raised again, any
    other exception becomes a 500 with its text as detail. *)
Definition on_exception (ext : externals) (e : exn) : M InvoiceData :=
  match e with
  | HTTPException _ _ => raise e
  | _ => raise (HTTPException 500 (exn_str ext e))
  end.

(** The handler; [read_failure] says whether the read of the upload
    raises. The read stands before the [try] block. *)
Definition analyze_invoice_reading (ext : externals) (file : UploadFile)
    (read_failure : option string) : M InvoiceData :=
  if negb (content_type_allowed file) then
    raise (HTTPException 400 "Unsupported file type")
  else
    file_bytes <- file_read file read_failure ;;
    try_except (try_body ext file file_bytes) (on_exception ext).

(** The handler on an upload that can be read. *)
Definition analyze_invoice (ext : externals) (file : UploadFile)
    : M InvoiceData :=
  analyze_invoice_reading ext file None.

(** ** Sample collaborators

    A fixed PyMuPDF, model and parser to run the endpoint on: the parser
    knows the sample responses only. *)

Definition quoted (s : string) : string := dq +:+ s +:+ dq.

(** [{"vendor":"Acme Ltd","invoice_number":"1001","invoice_date":null,
     "due_date":null,"total_amount":250.0,"currency":"USD","valid":true}] *)
Definition acme_text : string :=
  "{" +:+ quoted "vendor" +:+ ":" +:+ quoted "Acme Ltd" +:+ ","
  +:+ quoted "invoice_number" +:+ ":" +:+ quoted "1001" +:+ ","
  +:+ quoted "invoice_date" +:+ ":null,"
  +:+ quoted "due_date" +:+ ":null,"
  +:+ quoted "total_amount" +:+ ":250.0,"
  +:+ quoted "currency" +:+ ":" +:+ quoted "USD" +:+ ","
  +:+ quoted "valid" +:+ ":true}".

Definition acme_json : json :=
  JObject (<["vendor" := JStr "Acme Ltd"]>
          (<["invoice_number" := JStr "1001"]>
          (<["invoice_date" := JNull]>
          (<["due_date" := JNull]>
          (<["total_amount" := JFloat 250]>
          (<["currency" := JStr "USD"]>
          (<["valid" := JBool true]> ∅))))))).

(** [{"total_amount":250,"valid":false}] *)
Definition bare_text : string :=
  "{" +:+ quoted "total_amount" +:+ ":250," +:+ quoted "valid" +:+ ":false}".

Definition bare_json : json :=
  JObject (<["total_amount" := JInt 250]> (<["valid" := JBool false]> ∅)).

(** [{"total_amount":"10.00","currency":null}] *)
Definition null_currency_text : string :=
  "{" +:+ quoted "total_amount" +:+ ":" +:+ quoted "10.00" +:+ ","
  +:+ quoted "currency" +:+ ":null}".

Definition null_currency_json : json :=
  JObject (<["total_amount" := JStr "10.00"]> (<["currency" := JNull]> ∅)).

(** [{"vendor":"Acme Ltd"}] *)
Definition no_total_text : string :=
  "{" +:+ quoted "vendor" +:+ ":" +:+ quoted "Acme Ltd" +:+ "}".

Definition no_total_json : json :=
  JObject (<["vendor" := JStr "Acme Ltd"]> ∅).

Definition sample_json_loads (text : string) : option json :=
  if String.eqb text acme_text then Some acme_json
  else if String.eqb text bare_text then Some bare_json
  else if String.eqb text null_currency_text then Some null_currency_json
  else if String.eqb text no_total_text then Some no_total_json
  else None.

(** One line naming how many errors there are. *)
Definition sample_error_str (errs : list line_error) : string :=
  Py.decimal (Z.of_nat (length errs)) +:+ " validation error(s) for InvoiceData".

(** A model that answers every request with [reply]; a PDF library that
    finds [pages] in every document. *)
Definition sample_ext (pages : list string) (reply : string) : externals :=
  {| MODEL_NAME := "sample-model";
     fitz_page_texts := fun _ => inr pages;
     chat_completions_create := fun _ => inr {| choices := [Some reply] |};
     json_loads := sample_json_loads;
     validation_error_str := sample_error_str |}.

(** A model whose endpoint cannot be reached. *)
Definition offline_ext : externals :=
  {| MODEL_NAME := "sample-model";
     fitz_page_texts := fun _ => inr ["Acme Ltd"];
     chat_completions_create := fun _ => inl "Connection error.";
     json_loads := sample_json_loads;
     validation_error_str := sample_error_str |}.

Definition png_file : UploadFile :=
  {| content_type := Some "image/png"; file_contents := [x89; x50; x4e; x47]%byte |}.

Definition pdf_file : UploadFile :=
  {| content_type := Some "application/pdf";
     file_contents := [x25; x50; x44; x46]%byte |}.

Definition text_file : UploadFile :=
  {| content_type := Some "text/plain"; file_contents := [x68; x69]%byte |}.

(** [data] with its [total_amount] replaced. *)
Definition with_total_amount (data : InvoiceData) (v : amount) : InvoiceData :=
  {| vendor := vendor data;
     invoice_number := invoice_number data;
     invoice_date := invoice_date data;
     due_date := due_date data;
     total_amount := v;
     currency := currency data;
     valid := valid data |}.

(** [q] is the number of hundredths that [m * 2^e] rounds to: the integer
    nearest to [100 * m * 2^e], and the even one when two are equally
    near. The comparison is written without fractions. *)
Definition rounds_to_hundredths (m e q : Z) : Prop :=
  let den := 2 ^ Z.max 0 (- e) in
  let num := 100 * m * 2 ^ Z.max 0 e in
  2 * Z.abs (num - q * den) < den
  \/ (2 * Z.abs (num - q * den) = den /\ Z.even q = true).

(** [str] is the decimal numeral of [n], written without leading zeros. *)
Definition numeral_of (n : N) (str : string) : Prop :=
  exists d, NilZero.uint_of_string str = Some d
            /\ Decimal.unorm d = d /\ N.of_uint d = n.

(** [str] is the two decimal digits of [n], which is below 100. *)
Definition two_digits_of (n : N) (str : string) : Prop :=
  exists d1 d0 : N,
    (d1 < 10)%N /\ (d0 < 10)%N /\ n = (10 * d1 + d0)%N
    /\ str = String (ascii_of_N (48 + d1))
               (String (ascii_of_N (48 + d0)) EmptyString).

(** [str] writes [q] hundredths with two decimal places: a minus sign when
    [neg], the whole part, a point, two digits. *)
Definition hundredths_text (neg : bool) (q : Z) (str : string) : Prop :=
  0 <= q
  /\ exists whole frac,
       numeral_of (Z.to_N (q / 100)) whole
       /\ two_digits_of (Z.to_N (q mod 100)) frac
       /\ str = (if neg then "-" else "") +:+ whole +:+ "." +:+ frac.

(** [str] is some amount written with two decimal places. *)
Definition fixed_two_decimals (str : string) : Prop :=
  exists neg q, hundredths_text neg q str.

(** [str] is the float [x] written with two decimal places: the sign of
    [x] and the hundredths it rounds to. No string is that for an infinite
    float or a NaN. *)
Definition two_decimal_places (x : float) (str : string) : Prop :=
  match Prim2SF x with
  | S754_zero s => hundredths_text s 0 str
  | S754_finite s m e =>
      exists q, rounds_to_hundredths (Zpos m) e q /\ hundredths_text s q str
  | S754_infinity _ => False
  | S754_nan => False
  end.

(** A point occurs in [s]. *)
Fixpoint has_point (s : string) : bool :=
  match s with
  | EmptyString => false
  | String c s' => Ascii.eqb c "."%char || has_point s'
  end.

(** The response names no currency: the key is missing, or its value is
    [null] as the prompt asks for a currency that is not visible. *)
Definition currency_unspecified (j : json) : Prop :=
  json_field j "currency" = None \/ json_field j "currency" = Some JNull.

(** A PDF library that rejects every document. *)
Definition broken_pdf_ext : externals :=
  {| MODEL_NAME := "sample-model";
     fitz_page_texts := fun _ => inl "Failed to open stream";
     chat_completions_create := fun _ => inr {| choices := [Some acme_text] |};
     json_loads := sample_json_loads;
     validation_error_str := sample_error_str |}.

(** [{"total_amount":1e400}]: the number is beyond the floats and is
    read as infinity. *)
Definition overflow_text : string :=
  "{" +:+ quoted "total_amount" +:+ ":1e400}".

Definition overflow_json : json :=
  JObject {["total_amount" := JFloat infinity]}.

(** A model that answers with an amount no float can hold. *)
Definition overflow_ext : externals :=
  {| MODEL_NAME := "sample-model";
     fitz_page_texts := fun _ => inr ["Acme Ltd"];
     chat_completions_create :=
       fun _ => inr {| choices := [Some overflow_text] |};
     json_loads :=
       fun text =>
         if String.eqb text overflow_text then Some overflow_json else None;
     validation_error_str := sample_error_str |}.

(** [{"total_amount":""}] *)
Definition empty_amount_text : string :=
  "{" +:+ quoted "total_amount" +:+ ":" +:+ quoted EmptyString +:+ "}".

(** A model that answers with an empty amount and nothing else. *)
Definition empty_amount_ext : externals :=
  {| MODEL_NAME := "sample-model";
     fitz_page_texts := fun _ => inr ["Acme Ltd"];
     chat_completions_create :=
       fun _ => inr {| choices := [Some empty_amount_text] |};
     json_loads :=
       fun text =>
         if String.eqb text empty_amount_text
         then Some (JObject {["total_amount" := JStr EmptyString]})
         else None;
     validation_error_str := sample_error_str |}.

(** A model that returns the given choices. *)
Definition choices_ext (cs : list (option string)) : externals :=
  {| MODEL_NAME := "sample-model";
     fitz_page_texts := fun _ => inr ["Acme Ltd"];
     chat_completions_create := fun _ => inr {| choices := cs |};
     json_loads := sample_json_loads;
     validation_error_str := sample_error_str |}.

(** ** Start of the process *)

(** What [load_dotenv] and the environment give: the three settings the
    module reads with [os.getenv]. *)
Record settings := {
  base_url : string;
  api_key : string;
  model_name : string
}.

(** [not v] for the result of [os.getenv]: [None] and the empty string are
    false values. *)
Definition py_not (v : option string) : bool :=
  match v with
  | None => true
  | Some s => negb (Py.truthy s)
  end.

(** The module's top level up to the creation of the client: the three
    variables are read and the module raises [ValueError] unless each has a
    true value. *)
Definition load_settings (getenv : string -> option string)
    : exn + settings :=
  let BASE_URL := getenv "BASE_URL" in
  let API_KEY := getenv "API_KEY" in
  let MODEL := getenv "MODEL_NAME" in
  if py_not BASE_URL || py_not API_KEY || py_not MODEL then
    inl (OtherException "Please set BASE_URL, API_KEY, and MODEL_NAME in .env")
  else
    match BASE_URL, API_KEY, MODEL with
    | Some u, Some k, Some m =>
        inr {| base_url := u; api_key := k; model_name := m |}
    | _, _, _ =>
        inl (OtherException "Please set BASE_URL, API_KEY, and MODEL_NAME in .env")
    end.

(** An environment given as a finite map, for [os.getenv]. *)
Definition getenv_of (env : gmap string string) (name : string)
    : option string := env !! name.

(** ** Notions used to state properties *)

(** The names of the fields of [InvoiceData]. *)
Definition FIELD_NAMES : list string :=
  ["vendor"; "invoice_number"; "invoice_date"; "due_date"; "total_amount";
   "currency"; "valid"].

(** The optional string fields whose default is [None]. *)
Definition NONE_DEFAULT_FIELDS : list string :=
  ["vendor"; "invoice_number"; "invoice_date"; "due_date"].

(** The fields declared [Optional[str]]. *)
Definition STRING_FIELDS : list string :=
  ["vendor"; "invoice_number"; "invoice_date"; "due_date"; "currency"].

(** The errors of all fields of an object, in the order of the fields. *)
Definition field_errors (o : gmap string json) : list line_error :=
  (errors_of (validate_optional_str "vendor" None (o !! "vendor"))
   ++ errors_of (validate_optional_str "invoice_number" None
                   (o !! "invoice_number"))
   ++ errors_of (validate_optional_str "invoice_date" None (o !! "invoice_date"))
   ++ errors_of (validate_optional_str "due_date" None (o !! "due_date"))
   ++ errors_of (validate_total_amount (o !! "total_amount"))
   ++ errors_of (validate_optional_str "currency" (Some "USD") (o !! "currency"))
   ++ errors_of (validate_bool "valid" true (o !! "valid")))%list.

(** The place of a character in a string, its length when it is not
    there. *)
Fixpoint index_of (c : ascii) (s : string) : nat :=
  match s with
  | EmptyString => 0
  | String d s' => if Ascii.eqb c d then 0 else S (index_of c s')
  end.

(** The six bits a base64 character stands for; 64 for any other
    character. *)
Definition b64_index (c : ascii) : N :=
  N.of_nat (index_of c Py.b64_alphabet).

(** The event is a call of the model client. *)
Definition is_model_call (ev : event) : bool :=
  match ev with
  | ChatCreate _ => true
  | _ => false
  end.

(** [s] is a sequence of members of [ts]. *)
Inductive tokens_text (ts : list string) : string -> Prop :=
| tokens_nil : tokens_text ts ""
| tokens_cons (t s : string) :
    t ∈ ts -> tokens_text ts s -> tokens_text ts (t +:+ s).

(** [s] is made of white-space characters only. *)
Inductive white_space_only : string -> Prop :=
| ws_empty : white_space_only ""
| ws_char (cp : N) (s : string) :
    cp ∈ Py.WHITESPACE -> white_space_only s ->
    white_space_only (Py.utf8 cp +:+ s).

(** [s] starts, and [s] ends, with a white-space character. *)
Definition starts_with_space (s : string) : Prop :=
  exists cp r, cp ∈ Py.WHITESPACE /\ s = Py.utf8 cp +:+ r.

Definition ends_with_space (s : string) : Prop :=
  exists cp r, cp ∈ Py.WHITESPACE /\ s = r +:+ Py.utf8 cp.

(** [t] is a prefix of [s]. *)
Definition is_prefix (t s : string) : bool :=
  match Py.strip_prefix t s with Some _ => true | None => false end.

(** The text of all pages, in page order. *)
Definition pages_text (pages : list string) : string :=
  fold_left (fun text page => text +:+ page) pages "".

(** * Properties *)

(** ** Number formatting *)

Lemma round_half_even_rounds (num den : Z) :
  0 < den ->
  let q := Py.round_half_even num den in
  2 * Z.abs (num - q * den) < den
  \/ (2 * Z.abs (num - q * den) = den /\ Z.even q = true).
Proof.
  intros Hden. cbv zeta. unfold Py.round_half_even.
  pose proof (Z.div_mod num den ltac:(lia)) as Hdm.
  pose proof (Z.mod_pos_bound num den Hden) as Hr.
  destruct (Z.compare_spec (2 * (num mod den)) den) as [Heq | Hlt | Hgt].
  - right. destruct (Z.even (num / den)) eqn:He.
    + split; [lia | exact He].
    + split; [lia |]. rewrite Z.even_add, He. reflexivity.
  - left. lia.
  - left. lia.
Qed.

Lemma round_half_even_nonneg (num den : Z) :
  0 <= num -> 0 < den -> 0 <= Py.round_half_even num den.
Proof.
  intros Hn Hd. unfold Py.round_half_even.
  pose proof (Z.div_pos num den Hn Hd).
  destruct (2 * (num mod den) ?= den); [destruct (Z.even (num / den)) | |];
    lia.
Qed.

Lemma hundredths_rounds (m e : Z) :
  rounds_to_hundredths m e (Py.hundredths m e).
Proof.
  unfold rounds_to_hundredths, Py.hundredths.
  destruct (Z.leb_spec 0 e) as [Hpos | Hneg].
  - rewrite (Z.max_l 0 (- e)) by lia. rewrite (Z.max_r 0 e) by lia.
    change (2 ^ 0) with 1. left. lia.
  - rewrite (Z.max_r 0 (- e)) by lia. rewrite (Z.max_l 0 e) by lia.
    change (2 ^ 0) with 1. rewrite Z.mul_1_r.
    apply round_half_even_rounds. apply Z.pow_pos_nonneg; lia.
Qed.

Lemma hundredths_nonneg (m e : Z) : 0 <= m -> 0 <= Py.hundredths m e.
Proof.
  intros Hm. unfold Py.hundredths. destruct (Z.leb_spec 0 e) as [Hpos | Hneg].
  - pose proof (Z.pow_nonneg 2 e ltac:(lia)). nia.
  - apply round_half_even_nonneg; [lia | apply Z.pow_pos_nonneg; lia].
Qed.

Lemma rounds_to_hundredths_unique (m e q1 q2 : Z) :
  rounds_to_hundredths m e q1 -> rounds_to_hundredths m e q2 -> q1 = q2.
Proof.
  unfold rounds_to_hundredths. cbv zeta.
  set (den := 2 ^ Z.max 0 (- e)). set (num := 100 * m * 2 ^ Z.max 0 e).
  assert (Hden : 0 < den) by (apply Z.pow_pos_nonneg; lia).
  clearbody den num. intros H1 H2.
  assert (Hnear : q1 = q2 \/ q1 = q2 + 1 \/ q2 = q1 + 1) by nia.
  destruct Hnear as [H | [H | H]]; [exact H | |]; exfalso; subst;
    destruct H1 as [H1 | [H1 E1]]; destruct H2 as [H2 | [H2 E2]]; try nia;
    rewrite Z.even_add in *; simpl in *; destruct (Z.even _); discriminate.
Qed.

Lemma to_uint_normal (n : N) : Decimal.unorm (N.to_uint n) = N.to_uint n.
Proof.
  rewrite <- (DecimalN.Unsigned.of_to n) at 2.
  symmetry. apply DecimalN.Unsigned.to_of.
Qed.

Lemma to_uint_not_nil (n : N) : N.to_uint n <> Decimal.Nil.
Proof.
  intros Hnil. pose proof (to_uint_normal n) as Hn. rewrite Hnil in Hn.
  discriminate.
Qed.

Lemma numeral_of_decimal (n : Z) : numeral_of (Z.to_N n) (Py.decimal n).
Proof.
  exists (N.to_uint (Z.to_N n)). unfold Py.decimal.
  split; [apply NilZero.usu, to_uint_not_nil |].
  split; [apply to_uint_normal | apply DecimalN.Unsigned.of_to].
Qed.

Lemma numeral_of_unique (n : N) (s1 s2 : string) :
  numeral_of n s1 -> numeral_of n s2 -> s1 = s2.
Proof.
  intros (d1 & P1 & U1 & V1) (d2 & P2 & U2 & V2).
  assert (Hd : d1 = d2).
  { rewrite <- U1, <- U2, <- !DecimalN.Unsigned.to_of, V1, V2. reflexivity. }
  subst d2. apply NilZero.sus in P1, P2. congruence.
Qed.

Lemma two_digits_of_digits (q : Z) :
  0 <= q ->
  two_digits_of (Z.to_N (q mod 100))
    (String (Py.digit (q / 10 mod 10)) (String (Py.digit (q mod 10)) EmptyString)).
Proof.
  intros Hq.
  pose proof (Z.mod_pos_bound (q / 10) 10 ltac:(lia)) as H1.
  pose proof (Z.mod_pos_bound q 10 ltac:(lia)) as H0.
  pose proof (Z.mod_pos_bound q 100 ltac:(lia)) as H2.
  exists (Z.to_N (q / 10 mod 10)), (Z.to_N (q mod 10)).
  split; [lia |]. split; [lia |]. split.
  - pose proof (Z.div_mod q 10 ltac:(lia)).
    pose proof (Z.div_mod (q / 10) 10 ltac:(lia)) as E.
    pose proof (Z.div_mod q 100 ltac:(lia)).
    rewrite Z.div_div in E by lia. change (10 * 10) with 100 in E. lia.
  - unfold Py.digit. repeat f_equal; lia.
Qed.

Lemma two_digits_of_unique (n : N) (s1 s2 : string) :
  two_digits_of n s1 -> two_digits_of n s2 -> s1 = s2.
Proof.
  intros (a1 & a0 & ? & ? & E1 & ->) (b1 & b0 & ? & ? & E2 & ->).
  assert (a1 = b1 /\ a0 = b0) as [-> ->] by lia. reflexivity.
Qed.

Lemma fixed2_text (neg : bool) (q : Z) :
  0 <= q -> hundredths_text neg q (Py.sign_prefix neg +:+ Py.fixed2 q).
Proof.
  intros Hq. split; [exact Hq |].
  exists (Py.decimal (q / 100)),
    (String (Py.digit (q / 10 mod 10)) (String (Py.digit (q mod 10)) EmptyString)).
  split; [apply numeral_of_decimal |].
  split; [apply two_digits_of_digits, Hq | reflexivity].
Qed.

Lemma hundredths_text_unique (neg : bool) (q : Z) (s1 s2 : string) :
  hundredths_text neg q s1 -> hundredths_text neg q s2 -> s1 = s2.
Proof.
  intros (_ & w1 & f1 & Hw1 & Hf1 & ->) (_ & w2 & f2 & Hw2 & Hf2 & ->).
  rewrite (numeral_of_unique _ _ _ Hw1 Hw2).
  rewrite (two_digits_of_unique _ _ _ Hf1 Hf2). reflexivity.
Qed.

Lemma format_2f_two_decimal_places (x : float) :
  match Prim2SF x with
  | S754_nan => Py.format_2f x = "nan"
  | S754_infinity s => Py.format_2f x = (if s then "-inf" else "inf")
  | _ => two_decimal_places x (Py.format_2f x)
  end.
Proof.
  unfold two_decimal_places, Py.format_2f.
  destruct (Prim2SF x) as [s | s | | s m e].
  - apply fixed2_text. lia.
  - destruct s; reflexivity.
  - reflexivity.
  - exists (Py.hundredths (Z.pos m) e).
    split; [apply hundredths_rounds |].
    apply fixed2_text, hundredths_nonneg. lia.
Qed.

Lemma two_decimal_places_unique (x : float) (s1 s2 : string) :
  two_decimal_places x s1 -> two_decimal_places x s2 -> s1 = s2.
Proof.
  unfold two_decimal_places.
  destruct (Prim2SF x) as [s | s | | s m e]; try contradiction.
  - apply hundredths_text_unique.
  - intros (q1 & R1 & T1) (q2 & R2 & T2).
    rewrite (rounds_to_hundredths_unique _ _ _ _ R2 R1) in T2.
    exact (hundredths_text_unique _ _ _ _ T1 T2).
Qed.

Lemma has_point_app (s t : string) :
  has_point (s +:+ t) = has_point s || has_point t.
Proof.
  induction s as [| c s IH]; [reflexivity |].
  change (has_point (String c (s +:+ t))
          = has_point (String c s) || has_point t).
  simpl. rewrite IH. apply orb_assoc.
Qed.

Lemma fixed_two_decimals_has_point (str : string) :
  fixed_two_decimals str -> has_point str = true.
Proof.
  intros (neg & q & _ & whole & frac & _ & _ & ->).
  rewrite !has_point_app. simpl. rewrite !orb_true_r. reflexivity.
Qed.

(** ** The Normalizer *)

Lemma normalize_invoice_float (data : InvoiceData) (x : float) :
  total_amount data = AFloat x ->
  normalize_invoice data = with_total_amount data (AStr (Py.format_2f x)).
Proof. intros H. unfold normalize_invoice. rewrite H. reflexivity. Qed.

Lemma normalize_invoice_str (data : InvoiceData) (s : string) :
  total_amount data = AStr s -> normalize_invoice data = data.
Proof. intros H. unfold normalize_invoice. rewrite H. reflexivity. Qed.

Lemma normalize_invoice_is_str (data : InvoiceData) :
  exists s, total_amount (normalize_invoice data) = AStr s.
Proof.
  destruct (total_amount data) as [s | x] eqn:E.
  - exists s. rewrite (normalize_invoice_str data s E). exact E.
  - exists (Py.format_2f x). rewrite (normalize_invoice_float data x E).
    reflexivity.
Qed.

(** C4, as the code has it: the Normalizer turns a numeric [total_amount]
    into a string and leaves a string [total_amount] as it is. For a finite
    number the string is the number written with two decimal places (sign,
    whole part without leading zeros, point, two digits of the nearest
    hundredth, the even one at a tie), and no other string is that; the
    number 1234.5 becomes "1234.50". An infinite number becomes "inf" or
    "-inf", and a NaN "nan". *)
Theorem normalize_total_amount (data : InvoiceData) :
  match total_amount data with
  | AFloat x =>
      exists str,
        total_amount (normalize_invoice data) = AStr str
        /\ match Prim2SF x with
           | S754_nan => str = "nan"
           | S754_infinity s => str = (if s then "-inf" else "inf")
           | _ => two_decimal_places x str
                  /\ forall str', two_decimal_places x str' -> str' = str
           end
  | AStr s => total_amount (normalize_invoice data) = AStr s
  end
  /\ total_amount (normalize_invoice (with_total_amount data (AFloat 1234.5)))
     = AStr "1234.50"
  /\ total_amount (normalize_invoice (with_total_amount data (AStr "1234.50")))
     = AStr "1234.50".
Proof.
  split; [| split; reflexivity].
  destruct (total_amount data) as [s | x] eqn:E.
  - rewrite (normalize_invoice_str data s E). exact E.
  - exists (Py.format_2f x).
    rewrite (normalize_invoice_float data x E). split; [reflexivity |].
    pose proof (format_2f_two_decimal_places x) as Hf.
    destruct (Prim2SF x) as [s | s | | s m e] eqn:Ex; try exact Hf;
      (split; [exact Hf |]); intros str' Hs';
      exact (two_decimal_places_unique x _ _ Hs' Hf).
Qed.

Lemma normalize_total_amount_sample :
  two_decimal_places 1234.5 "1234.50"
  /\ forall str', two_decimal_places 1234.5 str' -> str' = "1234.50".
Proof.
  destruct (proj1 (normalize_total_amount
                     {| vendor := None; invoice_number := None;
                        invoice_date := None; due_date := None;
                        total_amount := AFloat 1234.5;
                        currency := Some "USD"; valid := true |}))
    as (str & Hs & Hp).
  cbn in Hs. inversion Hs; subst str. exact Hp.
Defined.

(** C4, as the claim states it, fails: the reply [{"total_amount":1e400}]
    is read as the infinite float, passes the validator, and the record
    returned for it has the amount "inf", which is no amount written with
    two decimal places. *)
Lemma infinite_amount_is_not_two_decimals :
  json_loads overflow_ext overflow_text = Some overflow_json
  /\ json_field overflow_json "total_amount" = Some (JFloat infinity)
  /\ (exists invoice,
        model_validate overflow_json = inr invoice
        /\ total_amount invoice = AFloat infinity
        /\ total_amount (normalize_invoice invoice) = AStr "inf")
  /\ ~ two_decimal_places infinity "inf"
  /\ ~ fixed_two_decimals "inf".
Proof.
  split; [reflexivity | split; [reflexivity | split; [| split]]].
  - eexists. split; [reflexivity |]. split; reflexivity.
  - intros H. exact H.
  - intros H. apply fixed_two_decimals_has_point in H. discriminate.
Qed.

(** C6: the Normalizer is idempotent, and a record whose [total_amount] is
    a string is a fixed point of it. *)
Theorem normalize_idempotent (data : InvoiceData) :
  normalize_invoice (normalize_invoice data) = normalize_invoice data
  /\ match total_amount data with
     | AStr _ => normalize_invoice data = data
     | AFloat _ => True
     end.
Proof.
  split.
  - destruct (normalize_invoice_is_str data) as [s Hs].
    apply (normalize_invoice_str _ s Hs).
  - destruct (total_amount data) as [s | x] eqn:E; [| exact I].
    apply (normalize_invoice_str data s E).
Qed.

(** C9: the Normalizer writes [total_amount] only: the six other fields of
    its result are those of its argument, an absent vendor and [valid]
    false among them. *)
Theorem normalize_frame (data : InvoiceData) :
  vendor (normalize_invoice data) = vendor data
  /\ invoice_number (normalize_invoice data) = invoice_number data
  /\ invoice_date (normalize_invoice data) = invoice_date data
  /\ due_date (normalize_invoice data) = due_date data
  /\ currency (normalize_invoice data) = currency data
  /\ valid (normalize_invoice data) = valid data.
Proof.
  unfold normalize_invoice.
  destruct (total_amount data); repeat split; reflexivity.
Qed.

(** ** The monad *)

Lemma bind_ok_inv {A B} (m : M A) (f : A -> M B) (tr : list event) (b : B) :
  bind m f = (tr, inr b) ->
  exists tr1 a tr2,
    m = (tr1, inr a) /\ f a = (tr2, inr b) /\ tr = (tr1 ++ tr2)%list.
Proof.
  unfold bind. destruct m as [tr1 [e | a]]; [discriminate |].
  destruct (f a) as [tr2 r] eqn:Ef. intros H. inversion H; subst.
  exists tr1, a, tr2. auto.
Qed.

Lemma on_exception_raises (ext : externals) (e : exn) :
  on_exception ext e =
  raise (match e with
         | HTTPException c d => HTTPException c d
         | _ => HTTPException 500 (exn_str ext e)
         end).
Proof. destruct e; reflexivity. Qed.

Lemma try_except_ok_inv (ext : externals) (body : M InvoiceData)
    (tr : list event) (r : InvoiceData) :
  try_except body (on_exception ext) = (tr, inr r) -> body = (tr, inr r).
Proof.
  unfold try_except. destruct body as [tr1 [e | a]]; [| trivial].
  rewrite on_exception_raises. discriminate.
Qed.

(** ** The content type check *)

Lemma content_type_allowed_spec (file : UploadFile) :
  content_type_allowed file = true <->
  content_type file = Some "image/png"
  \/ content_type file = Some "image/jpeg"
  \/ content_type file = Some "application/pdf".
Proof.
  unfold content_type_allowed, ALLOWED_TYPES.
  destruct (content_type file) as [t |]; simpl.
  - rewrite !orb_true_iff, !String.eqb_eq. split.
    + intros [-> | [-> | [-> | Hf]]]; auto. discriminate.
    + intros [H | [H | H]]; inversion H; auto.
  - split; [discriminate | intros [H | [H | H]]; discriminate].
Qed.

Lemma content_type_not_allowed (file : UploadFile) :
  content_type file <> Some "image/png" ->
  content_type file <> Some "image/jpeg" ->
  content_type file <> Some "application/pdf" ->
  content_type_allowed file = false.
Proof.
  intros H1 H2 H3. destruct (content_type_allowed file) eqn:E; [| reflexivity].
  apply content_type_allowed_spec in E. tauto.
Qed.

Lemma analyze_invoice_unsupported (ext : externals) (file : UploadFile) :
  content_type_allowed file = false ->
  analyze_invoice ext file = raise (HTTPException 400 "Unsupported file type").
Proof.
  intros H. unfold analyze_invoice, analyze_invoice_reading. rewrite H.
  reflexivity.
Qed.

Lemma analyze_invoice_supported (ext : externals) (file : UploadFile) :
  content_type_allowed file = true ->
  analyze_invoice ext file =
  let body := try_except (try_body ext file (file_contents file))
                         (on_exception ext) in
  (FileRead :: trace body, outcome body).
Proof.
  intros H. unfold analyze_invoice, analyze_invoice_reading. rewrite H. simpl.
  destruct (try_except _ _). reflexivity.
Qed.

(** C2: a file whose declared content type is none of image/png,
    image/jpeg and application/pdf is answered with status 400 and the
    detail "Unsupported file type", whatever its bytes are and whatever the
    collaborators would do. *)
Theorem unsupported_type_rejected (ext : externals) (file : UploadFile) :
  content_type file <> Some "image/png" ->
  content_type file <> Some "image/jpeg" ->
  content_type file <> Some "application/pdf" ->
  forall contents : Py.bytes,
    outcome (analyze_invoice ext
               {| content_type := content_type file;
                  file_contents := contents |})
    = inl (HTTPException 400 "Unsupported file type").
Proof.
  intros H1 H2 H3 contents.
  rewrite analyze_invoice_unsupported; [reflexivity |].
  apply content_type_not_allowed; assumption.
Qed.

Lemma unsupported_type_rejected_text_plain :
  content_type text_file <> Some "image/png"
  /\ content_type text_file <> Some "image/jpeg"
  /\ content_type text_file <> Some "application/pdf"
  /\ outcome (analyze_invoice offline_ext text_file)
     = inl (HTTPException 400 "Unsupported file type").
Proof.
  assert (H1 : content_type text_file <> Some "image/png") by discriminate.
  assert (H2 : content_type text_file <> Some "image/jpeg") by discriminate.
  assert (H3 : content_type text_file <> Some "application/pdf") by discriminate.
  split; [exact H1 | split; [exact H2 | split; [exact H3 |]]].
  exact (unsupported_type_rejected offline_ext text_file H1 H2 H3
           (file_contents text_file)).
Defined.

(** C8: on a disallowed content type the handler makes no external call:
    the file is not read, PyMuPDF is not run and the model client is not
    called; the answer does not depend on the collaborators. *)
Theorem unsupported_type_no_calls (ext : externals) (file : UploadFile) :
  content_type file <> Some "image/png" ->
  content_type file <> Some "image/jpeg" ->
  content_type file <> Some "application/pdf" ->
  trace (analyze_invoice ext file) = []
  /\ (forall ev : event, ev ∉ trace (analyze_invoice ext file))
  /\ (forall ext' : externals, analyze_invoice ext' file = analyze_invoice ext file).
Proof.
  intros H1 H2 H3.
  pose proof (content_type_not_allowed file H1 H2 H3) as Hno.
  rewrite (analyze_invoice_unsupported ext file Hno).
  split; [reflexivity | split].
  - intros ev Hin. simpl in Hin. inversion Hin.
  - intros ext'. apply analyze_invoice_unsupported. exact Hno.
Qed.

Lemma unsupported_type_no_calls_text_plain :
  trace (analyze_invoice (sample_ext ["Acme Ltd"] acme_text) text_file) = []
  /\ (forall ev : event,
        ev ∉ trace (analyze_invoice (sample_ext ["Acme Ltd"] acme_text) text_file))
  /\ (forall ext' : externals,
        analyze_invoice ext' text_file
        = analyze_invoice (sample_ext ["Acme Ltd"] acme_text) text_file).
Proof.
  apply (unsupported_type_no_calls (sample_ext ["Acme Ltd"] acme_text) text_file);
    discriminate.
Defined.

(** ** The PDF branch *)

Lemma is_pdf_allowed (file : UploadFile) :
  content_type file = Some "application/pdf" ->
  is_pdf file = true /\ content_type_allowed file = true.
Proof.
  intros H. split.
  - unfold is_pdf. rewrite H. reflexivity.
  - apply content_type_allowed_spec. auto.
Qed.

Lemma extract_text_from_pdf_trace (ext : externals) (pdf_bytes : Py.bytes) :
  trace (extract_text_from_pdf ext pdf_bytes) = [FitzOpen pdf_bytes].
Proof.
  unfold extract_text_from_pdf, call.
  destruct (fitz_page_texts ext pdf_bytes); reflexivity.
Qed.

(** C3: a PDF whose extracted and trimmed text is empty is answered with
    status 400 and the no-readable-text detail; the calls made are the read
    of the file and the text extraction, and the model client is not
    called. *)
Theorem empty_pdf_text_rejected (ext : externals) (file : UploadFile)
    (tr : list event) :
  content_type file = Some "application/pdf" ->
  extract_text_from_pdf ext (file_contents file) = (tr, inr "") ->
  analyze_invoice ext file
  = ([FileRead; FitzOpen (file_contents file)],
     inl (HTTPException 400 "No readable text found in PDF (possibly scanned)"))
  /\ forall request : ChatRequest,
       ChatCreate request ∉ trace (analyze_invoice ext file).
Proof.
  intros Hct Hex.
  destruct (is_pdf_allowed file Hct) as [Hpdf Hok].
  assert (Htr : tr = [FitzOpen (file_contents file)]).
  { pose proof (extract_text_from_pdf_trace ext (file_contents file)) as Ht.
    rewrite Hex in Ht. exact Ht. }
  subst tr.
  assert (Heq : analyze_invoice ext file
    = ([FileRead; FitzOpen (file_contents file)],
       inl (HTTPException 400 "No readable text found in PDF (possibly scanned)"))).
  { rewrite (analyze_invoice_supported ext file Hok).
    unfold try_body, query_model. rewrite Hpdf, Hex. reflexivity. }
  split; [exact Heq |].
  intros request Hin. rewrite Heq in Hin. simpl in Hin.
  apply elem_of_cons in Hin as [Hin | Hin]; [discriminate |].
  apply elem_of_cons in Hin as [Hin | Hin]; [discriminate |].
  inversion Hin.
Qed.

Lemma empty_pdf_text_rejected_blank_pages :
  content_type pdf_file = Some "application/pdf"
  /\ extract_text_from_pdf (sample_ext [" "; "
"] acme_text) (file_contents pdf_file)
     = ([FitzOpen (file_contents pdf_file)], inr "")
  /\ analyze_invoice (sample_ext [" "; "
"] acme_text) pdf_file
     = ([FileRead; FitzOpen (file_contents pdf_file)],
        inl (HTTPException 400 "No readable text found in PDF (possibly scanned)")).
Proof.
  split; [reflexivity | split; [reflexivity |]].
  apply (empty_pdf_text_rejected (sample_ext [" "; "
"] acme_text) pdf_file [FitzOpen (file_contents pdf_file)]); reflexivity.
Defined.

(** ** The [try] block *)

Lemma call_not_http {A} (ev : event) (r : string + A) (tr : list event)
    (c : Z) (d : string) :
  call ev r <> (tr, inl (HTTPException c d)).
Proof. unfold call. destruct r; intros H; inversion H. Qed.

Lemma model_validate_json_cases (ext : externals) (result : option string) :
  (exists invoice, model_validate_json ext result = ret invoice)
  \/ (exists errs, model_validate_json ext result = raise (ValidationError errs)).
Proof.
  unfold model_validate_json.
  destruct result as [text |]; [| right; eauto].
  destruct (json_loads ext text) as [j |]; [| right; eauto].
  destruct (model_validate j) as [errs | invoice]; [right | left]; eauto.
Qed.

Lemma model_validate_json_ok_inv (ext : externals) (result : option string)
    (tr : list event) (invoice : InvoiceData) :
  model_validate_json ext result = (tr, inr invoice) ->
  exists text j,
    result = Some text /\ json_loads ext text = Some j
    /\ model_validate j = inr invoice /\ tr = [].
Proof.
  unfold model_validate_json.
  destruct result as [text |]; [| discriminate].
  destruct (json_loads ext text) as [j |] eqn:Ej; [| discriminate].
  destruct (model_validate j) as [errs | inv] eqn:Ev; [discriminate |].
  intros H. inversion H; subst. exists text, j. auto.
Qed.

Lemma try_body_replied (ext : externals) (file : UploadFile)
    (file_bytes : Py.bytes) (tr : list event) (response : ChatCompletion)
    (result : option string) :
  query_model ext file file_bytes = (tr, inr response) ->
  choices response !! 0%nat = Some result ->
  try_body ext file file_bytes
  = (tr, match outcome (model_validate_json ext result) with
         | inl e => inl e
         | inr invoice => inr (normalize_invoice invoice)
         end).
Proof.
  intros Hq Hc. unfold try_body.
  rewrite Hq. cbn [bind]. unfold first_choice_content. rewrite Hc.
  cbn [bind ret app].
  destruct (model_validate_json_cases ext result) as [[inv Hv] | [errs Hv]];
    rewrite Hv; cbn; rewrite ?app_nil_r; reflexivity.
Qed.

Lemma try_body_ok_inv (ext : externals) (file : UploadFile)
    (file_bytes : Py.bytes) (tr : list event) (r : InvoiceData) :
  try_body ext file file_bytes = (tr, inr r) ->
  exists response text j invoice,
    query_model ext file file_bytes = (tr, inr response)
    /\ choices response !! 0%nat = Some (Some text)
    /\ json_loads ext text = Some j
    /\ model_validate j = inr invoice
    /\ r = normalize_invoice invoice.
Proof.
  unfold try_body. intros H.
  apply bind_ok_inv in H as (tr1 & response & tr2 & Hq & H & ->).
  apply bind_ok_inv in H as (tr3 & result & tr4 & Hc & H & ->).
  apply bind_ok_inv in H as (tr5 & invoice & tr6 & Hv & H & ->).
  inversion H; subst.
  apply model_validate_json_ok_inv in Hv as (text & j & -> & Hj & Hm & ->).
  unfold first_choice_content in Hc.
  destruct (choices response !! 0%nat) as [c |] eqn:Ec; [| discriminate].
  inversion Hc; subst. simpl. rewrite app_nil_r.
  exists response, text, j, invoice. auto.
Qed.

Lemma analyze_invoice_ok_inv (ext : externals) (file : UploadFile)
    (tr : list event) (r : InvoiceData) :
  analyze_invoice ext file = (tr, inr r) ->
  content_type_allowed file = true
  /\ exists tr' response text j invoice,
       tr = FileRead :: tr'
       /\ query_model ext file (file_contents file) = (tr', inr response)
       /\ choices response !! 0%nat = Some (Some text)
       /\ json_loads ext text = Some j
       /\ model_validate j = inr invoice
       /\ r = normalize_invoice invoice.
Proof.
  intros H. destruct (content_type_allowed file) eqn:Hok.
  - split; [reflexivity |].
    rewrite (analyze_invoice_supported ext file Hok) in H. simpl in H.
    destruct (try_except _ _) as [tr' o] eqn:Et. simpl in H.
    inversion H; subst.
    apply try_except_ok_inv in Et.
    apply try_body_ok_inv in Et as (response & text & j & invoice & Hq).
    exists tr', response, text, j, invoice. tauto.
  - rewrite (analyze_invoice_unsupported ext file Hok) in H. discriminate.
Qed.

Lemma query_model_http_inv (ext : externals) (file : UploadFile)
    (file_bytes : Py.bytes) (tr : list event) (c : Z) (d : string) :
  query_model ext file file_bytes = (tr, inl (HTTPException c d)) ->
  is_pdf file = true
  /\ HTTPException c d
     = HTTPException 400 "No readable text found in PDF (possibly scanned)"
  /\ extract_text_from_pdf ext file_bytes = (tr, inr "").
Proof.
  unfold query_model, create. destruct (is_pdf file).
  - unfold extract_text_from_pdf, call.
    destruct (fitz_page_texts ext file_bytes) as [msg | pages]; simpl.
    + discriminate.
    + destruct (Py.strip _) as [| a s] eqn:Es; simpl.
      * intros H. inversion H; subst. auto.
      * destruct (chat_completions_create ext _); discriminate.
  - intros H. exfalso. exact (call_not_http _ _ _ _ _ H).
Qed.

Lemma try_body_raise_inv (ext : externals) (file : UploadFile)
    (file_bytes : Py.bytes) (tr : list event) (e : exn) :
  try_body ext file file_bytes = (tr, inl e) ->
  query_model ext file file_bytes = (tr, inl e)
  \/ (exists response,
        query_model ext file file_bytes = (tr, inr response)
        /\ ((choices response !! 0%nat = None
             /\ e = OtherException "list index out of range")
            \/ exists result errs,
                 choices response !! 0%nat = Some result
                 /\ model_validate_json ext result
                    = raise (ValidationError errs)
                 /\ e = ValidationError errs)).
Proof.
  unfold try_body. intros H.
  destruct (query_model ext file file_bytes) as [tr1 [e1 | response]] eqn:Hq.
  - left. simpl in H. inversion H; subst. reflexivity.
  - right. exists response.
    unfold first_choice_content in H. cbn [bind] in H.
    destruct (choices response !! 0%nat) as [result |] eqn:Hc.
    + cbn [bind ret app] in H.
      destruct (model_validate_json_cases ext result)
        as [[inv Hv] | [errs Hv]]; rewrite Hv in H; cbn in H.
      * discriminate.
      * inversion H; subst. rewrite !app_nil_r.
        split; [reflexivity |]. right. exists result, errs. auto.
    + cbn in H. inversion H; subst. rewrite app_nil_r. auto.
Qed.

(** ** The Response Validator *)

Lemma model_validate_ok_inv (j : json) (invoice : InvoiceData) :
  model_validate j = inr invoice ->
  exists o,
    j = JObject o
    /\ validate_optional_str "vendor" None (o !! "vendor")
       = inr (vendor invoice)
    /\ validate_optional_str "invoice_number" None (o !! "invoice_number")
       = inr (invoice_number invoice)
    /\ validate_optional_str "invoice_date" None (o !! "invoice_date")
       = inr (invoice_date invoice)
    /\ validate_optional_str "due_date" None (o !! "due_date")
       = inr (due_date invoice)
    /\ validate_total_amount (o !! "total_amount")
       = inr (total_amount invoice)
    /\ validate_optional_str "currency" (Some "USD") (o !! "currency")
       = inr (currency invoice)
    /\ validate_bool "valid" true (o !! "valid") = inr (valid invoice).
Proof.
  destruct j as [| b | n | x | s | items | o]; try discriminate.
  unfold model_validate. cbv zeta.
  destruct (validate_optional_str "vendor" _ _) as [e1 | v1] eqn:E1;
    [discriminate |].
  destruct (validate_optional_str "invoice_number" _ _) as [e2 | v2] eqn:E2;
    [discriminate |].
  destruct (validate_optional_str "invoice_date" _ _) as [e3 | v3] eqn:E3;
    [discriminate |].
  destruct (validate_optional_str "due_date" _ _) as [e4 | v4] eqn:E4;
    [discriminate |].
  destruct (validate_total_amount _) as [e5 | v5] eqn:E5; [discriminate |].
  destruct (validate_optional_str "currency" _ _) as [e6 | v6] eqn:E6;
    [discriminate |].
  destruct (validate_bool "valid" _ _) as [e7 | v7] eqn:E7; [discriminate |].
  intros H. inversion H; subst. cbn [vendor invoice_number invoice_date
    due_date total_amount currency valid].
  exists o. repeat split; assumption.
Qed.

Lemma model_validate_missing_total (j : json) :
  json_field j "total_amount" = None ->
  exists errs,
    model_validate j = inl errs
    /\ ((["total_amount"], missing) ∈ errs \/ errs = [([], model_type)]).
Proof.
  destruct j as [| b | n | x | s | items | o]; intros Hf;
    try (eexists; split; [reflexivity | right; reflexivity]).
  simpl in Hf. unfold model_validate. cbv zeta. rewrite Hf.
  set (r5 := validate_total_amount None).
  assert (Hin : (["total_amount"], missing) ∈ errors_of r5) by (simpl; left).
  clearbody r5.
  destruct (validate_optional_str "vendor" _ _) as [e1 | v1];
    [eexists; split; [reflexivity | left; set_solver] |].
  destruct (validate_optional_str "invoice_number" _ _) as [e2 | v2];
    [eexists; split; [reflexivity | left; set_solver] |].
  destruct (validate_optional_str "invoice_date" _ _) as [e3 | v3];
    [eexists; split; [reflexivity | left; set_solver] |].
  destruct (validate_optional_str "due_date" _ _) as [e4 | v4];
    [eexists; split; [reflexivity | left; set_solver] |].
  destruct r5 as [e5 | v5];
    [eexists; split; [reflexivity | left; set_solver] |].
  simpl in Hin. inversion Hin.
Qed.

Lemma validate_total_amount_present (v : option json) (t : amount) :
  validate_total_amount v = inr t -> exists w, v = Some w.
Proof. destruct v as [w |]; [eauto | discriminate]. Qed.

(** ** A reply of the model, through the handler *)

Lemma analyze_invoice_replied (ext : externals) (file : UploadFile)
    (tr : list event) (response : ChatCompletion) (result : option string) :
  content_type_allowed file = true ->
  query_model ext file (file_contents file) = (tr, inr response) ->
  choices response !! 0%nat = Some result ->
  analyze_invoice ext file
  = (FileRead :: tr,
     match outcome (model_validate_json ext result) with
     | inl e => inl (HTTPException 500 (exn_str ext e))
     | inr invoice => inr (normalize_invoice invoice)
     end).
Proof.
  intros Hok Hq Hc.
  rewrite (analyze_invoice_supported ext file Hok).
  rewrite (try_body_replied ext file _ tr response result Hq Hc).
  destruct (model_validate_json_cases ext result) as [[inv ->] | [errs ->]];
    cbn; rewrite ?app_nil_r; reflexivity.
Qed.

Lemma analyze_invoice_reply_ok_inv (ext : externals) (file : UploadFile)
    (tr tr' : list event) (response : ChatCompletion) (text : string)
    (j : json) (r : InvoiceData) :
  query_model ext file (file_contents file) = (tr, inr response) ->
  choices response !! 0%nat = Some (Some text) ->
  json_loads ext text = Some j ->
  analyze_invoice ext file = (tr', inr r) ->
  exists invoice, model_validate j = inr invoice /\ r = normalize_invoice invoice.
Proof.
  intros Hq Hc Hj Hok.
  apply analyze_invoice_ok_inv in Hok
    as (_ & tr0 & response0 & text0 & j0 & invoice & _ & Hq0 & Hc0 & Hj0 & Hv & Hr).
  rewrite Hq in Hq0. inversion Hq0; subst response0.
  rewrite Hc in Hc0. inversion Hc0; subst text0.
  rewrite Hj in Hj0. inversion Hj0; subst j0.
  exists invoice. auto.
Qed.

(** C1: a reply that parses as JSON and has no [total_amount] field is
    rejected by the validator, and the handler answers with status 500
    whose detail is the text of the validation error; so every record the
    handler returns has its [total_amount] from a field of the reply. *)
Theorem missing_total_amount_rejected (ext : externals) (file : UploadFile)
    (tr : list event) (response : ChatCompletion) (text : string) (j : json) :
  content_type_allowed file = true ->
  query_model ext file (file_contents file) = (tr, inr response) ->
  choices response !! 0%nat = Some (Some text) ->
  json_loads ext text = Some j ->
  json_field j "total_amount" = None ->
  (exists errs,
     model_validate j = inl errs
     /\ ((["total_amount"], missing) ∈ errs \/ errs = [([], model_type)])
     /\ model_validate_json ext (Some text) = raise (ValidationError errs)
     /\ analyze_invoice ext file
        = (FileRead :: tr,
           inl (HTTPException 500 (validation_error_str ext errs))))
  /\ (forall file' tr' r,
        analyze_invoice ext file' = (tr', inr r) ->
        exists text' j' v invoice,
          json_loads ext text' = Some j'
          /\ json_field j' "total_amount" = Some v
          /\ validate_total_amount (Some v) = inr (total_amount invoice)
          /\ r = normalize_invoice invoice).
Proof.
  intros Hok Hq Hc Hj Hf. split.
  - destruct (model_validate_missing_total j Hf) as (errs & Hv & Hin).
    exists errs.
    assert (Hjson : model_validate_json ext (Some text)
                    = raise (ValidationError errs)).
    { unfold model_validate_json. rewrite Hj, Hv. reflexivity. }
    repeat split; try assumption.
    rewrite (analyze_invoice_replied ext file tr response (Some text) Hok Hq Hc).
    rewrite Hjson. reflexivity.
  - intros file' tr' r Hr.
    apply analyze_invoice_ok_inv in Hr
      as (_ & tr0 & response0 & text0 & j0 & invoice & _ & _ & _ & Hj0 & Hv & Hr).
    apply model_validate_ok_inv in Hv
      as (o & -> & _ & _ & _ & _ & Ht & _).
    destruct (validate_total_amount_present _ _ Ht) as [v Hv].
    exists text0, (JObject o), v, invoice.
    rewrite Hv in Ht. repeat split; assumption.
Qed.

Lemma missing_total_amount_rejected_sample :
  content_type_allowed png_file = true
  /\ json_loads (sample_ext [] no_total_text) no_total_text = Some no_total_json
  /\ json_field no_total_json "total_amount" = None
  /\ exists errs,
       model_validate no_total_json = inl errs
       /\ analyze_invoice (sample_ext [] no_total_text) png_file
          = ([FileRead;
              ChatCreate (image_request (sample_ext [] no_total_text) png_file
                            (Py.b64encode (file_contents png_file)))],
             inl (HTTPException 500 (sample_error_str errs))).
Proof.
  split; [reflexivity | split; [reflexivity | split; [reflexivity |]]].
  destruct (missing_total_amount_rejected (sample_ext [] no_total_text) png_file
              [ChatCreate (image_request (sample_ext [] no_total_text) png_file
                             (Py.b64encode (file_contents png_file)))]
              {| choices := [Some no_total_text] |} no_total_text no_total_json
              eq_refl eq_refl eq_refl eq_refl eq_refl)
    as [(errs & Hv & _ & _ & Ha) _].
  exists errs. split; [exact Hv | exact Ha].
Defined.

(** C5, as the code has it: when the reply has no [currency] key the
    returned record has the currency "USD"; when the reply gives
    [currency] as [null] the returned currency is absent, and a string is
    returned as it is. *)
Theorem absent_currency_defaults_to_USD (ext : externals) (file : UploadFile)
    (tr tr' : list event) (response : ChatCompletion) (text : string)
    (j : json) (r : InvoiceData) :
  query_model ext file (file_contents file) = (tr, inr response) ->
  choices response !! 0%nat = Some (Some text) ->
  json_loads ext text = Some j ->
  analyze_invoice ext file = (tr', inr r) ->
  match json_field j "currency" with
  | None => currency r = Some "USD"
  | Some JNull => currency r = None
  | Some v => exists s, v = JStr s /\ currency r = Some s
  end.
Proof.
  intros Hq Hc Hj Hok.
  destruct (analyze_invoice_reply_ok_inv ext file tr tr' response text j r
              Hq Hc Hj Hok) as (invoice & Hv & ->).
  assert (Hcur' : currency (normalize_invoice invoice) = currency invoice)
    by (unfold normalize_invoice; destruct (total_amount invoice); reflexivity).
  rewrite Hcur'. clear Hcur'.
  apply model_validate_ok_inv in Hv as (o & -> & _ & _ & _ & _ & _ & Hcur & _).
  simpl. unfold validate_optional_str, validate_str, fail in Hcur.
  destruct (o !! "currency") as [[| b | n | x | s | items | o'] |];
    inversion Hcur; eauto.
Qed.

Lemma absent_currency_defaults_to_USD_sample :
  json_field bare_json "currency" = None
  /\ exists tr r,
       analyze_invoice (sample_ext [] bare_text) png_file = (tr, inr r)
       /\ currency r = Some "USD".
Proof.
  split; [reflexivity |].
  eexists _, _. split; [reflexivity |].
  exact (absent_currency_defaults_to_USD (sample_ext [] bare_text) png_file
           _ _ {| choices := [Some bare_text] |} bare_text bare_json _
           eq_refl eq_refl eq_refl eq_refl).
Defined.

(** C5, as the claim states it, fails: a reply that gives [currency] as
    [null] names no currency, and the record returned for it has no
    currency either, not "USD". *)
Lemma null_currency_not_defaulted :
  currency_unspecified null_currency_json
  /\ json_loads (sample_ext [] null_currency_text) null_currency_text
     = Some null_currency_json
  /\ exists tr r,
       analyze_invoice (sample_ext [] null_currency_text) png_file = (tr, inr r)
       /\ currency r = None
       /\ currency r <> Some "USD".
Proof.
  split; [right; reflexivity | split; [reflexivity |]].
  eexists _, _. split; [reflexivity |]. split; [reflexivity | discriminate].
Qed.

(** ** Failures *)

Lemma try_body_http_inv (ext : externals) (file : UploadFile)
    (file_bytes : Py.bytes) (tr : list event) (c : Z) (d : string) :
  try_body ext file file_bytes = (tr, inl (HTTPException c d)) ->
  is_pdf file = true
  /\ HTTPException c d
     = HTTPException 400 "No readable text found in PDF (possibly scanned)"
  /\ extract_text_from_pdf ext file_bytes = (tr, inr "").
Proof.
  intros H. apply try_body_raise_inv in H as [Hq | (response & _ & Hr)].
  - exact (query_model_http_inv ext file file_bytes tr c d Hq).
  - destruct Hr as [[_ He] | (result & errs & _ & _ & He)]; discriminate.
Qed.

Lemma analyze_invoice_failed (ext : externals) (file : UploadFile)
    (tr : list event) (e : exn) :
  content_type_allowed file = true ->
  try_body ext file (file_contents file) = (tr, inl e) ->
  analyze_invoice ext file
  = (FileRead :: tr,
     inl (match e with
          | HTTPException c d => HTTPException c d
          | _ => HTTPException 500 (exn_str ext e)
          end)).
Proof.
  intros Hok Hb. rewrite (analyze_invoice_supported ext file Hok).
  rewrite Hb. unfold try_except. rewrite on_exception_raises.
  cbn. rewrite app_nil_r. reflexivity.
Qed.

Lemma analyze_invoice_read_failed (ext : externals) (file : UploadFile)
    (msg : string) :
  content_type_allowed file = true ->
  analyze_invoice_reading ext file (Some msg)
  = ([FileRead], inl (OtherException msg)).
Proof.
  intros Hok. unfold analyze_invoice_reading. rewrite Hok. reflexivity.
Qed.

(** C7, as the code has it: a bad content type is the 400 raised before
    the [try] block. A failure of the [try] block that is an
    [HTTPException] is the 400 of a PDF without text and is passed on as it
    is; any other failure of the [try] block, a failed model call and a
    rejected reply alike, becomes status 500 with the text of the
    exception, so that two failures with the same text give the same
    answer. An exception of the read of the upload, which stands before
    the [try] block, is not mapped: it leaves the handler as it is, after
    the read alone. These are all the failures there are. *)
Theorem failures_map_to_http_errors (ext : externals) (file : UploadFile)
    (read_failure : option string) :
  (content_type_allowed file = false ->
   analyze_invoice_reading ext file read_failure
   = raise (HTTPException 400 "Unsupported file type"))
  /\ (content_type_allowed file = true ->
      read_failure = None ->
      forall tr e,
        try_body ext file (file_contents file) = (tr, inl e) ->
        match e with
        | HTTPException c d =>
            is_pdf file = true
            /\ e = HTTPException 400
                     "No readable text found in PDF (possibly scanned)"
            /\ analyze_invoice_reading ext file read_failure
               = (FileRead :: tr, inl e)
        | _ =>
            analyze_invoice_reading ext file read_failure
            = (FileRead :: tr, inl (HTTPException 500 (exn_str ext e)))
        end)
  /\ (forall msg errs,
        validation_error_str ext errs = msg ->
        on_exception ext (OtherException msg)
        = on_exception ext (ValidationError errs))
  /\ (content_type_allowed file = true ->
      forall msg,
        read_failure = Some msg ->
        analyze_invoice_reading ext file read_failure
        = ([FileRead], inl (OtherException msg)))
  /\ (forall tr e,
        analyze_invoice_reading ext file read_failure = (tr, inl e) ->
        (exists c d, e = HTTPException c d /\ (c = 400 \/ c = 500))
        \/ (exists msg,
              read_failure = Some msg /\ e = OtherException msg
              /\ tr = [FileRead])).
Proof.
  split.
  { intros Hno. unfold analyze_invoice_reading. rewrite Hno. reflexivity. }
  split; [| split; [| split]].
  - intros Hok -> tr e Hb.
    change (analyze_invoice_reading ext file None)
      with (analyze_invoice ext file).
    pose proof (analyze_invoice_failed ext file tr e Hok Hb) as Ha.
    destruct e as [c d | errs | msg]; try exact Ha.
    destruct (try_body_http_inv ext file _ tr c d Hb) as (Hpdf & He & _).
    auto.
  - intros msg errs <-. reflexivity.
  - intros Hok msg ->. apply analyze_invoice_read_failed, Hok.
  - intros tr e Ha. destruct (content_type_allowed file) eqn:Hok.
    + destruct read_failure as [msg |].
      * rewrite (analyze_invoice_read_failed ext file msg Hok) in Ha.
        inversion Ha; subst. right. exists msg. auto.
      * left. change (analyze_invoice_reading ext file None)
          with (analyze_invoice ext file) in Ha.
        rewrite (analyze_invoice_supported ext file Hok) in Ha.
        destruct (try_body ext file (file_contents file))
          as [tr1 [e1 | r]] eqn:Hb.
        -- unfold try_except in Ha. rewrite on_exception_raises in Ha.
           cbn in Ha. inversion Ha; subst.
           destruct e1 as [c d | errs | msg]; eauto.
           destruct (try_body_http_inv ext file _ tr1 c d Hb) as (_ & He & _).
           inversion He; subst. eauto.
        -- discriminate.
    + left. unfold analyze_invoice_reading in Ha. rewrite Hok in Ha.
      inversion Ha; subst. eauto.
Qed.

Lemma failures_map_to_http_errors_offline :
  content_type_allowed png_file = true
  /\ try_body offline_ext png_file (file_contents png_file)
     = ([ChatCreate (image_request offline_ext png_file
                       (Py.b64encode (file_contents png_file)))],
        inl (OtherException "Connection error."))
  /\ analyze_invoice_reading offline_ext png_file None
     = ([FileRead;
         ChatCreate (image_request offline_ext png_file
                       (Py.b64encode (file_contents png_file)))],
        inl (HTTPException 500 "Connection error.")).
Proof.
  split; [reflexivity | split; [reflexivity |]].
  exact (proj1 (proj2 (failures_map_to_http_errors offline_ext png_file None))
           eq_refl eq_refl _ (OtherException "Connection error.") eq_refl).
Defined.

(** C7, as the claim states it, fails: when the read of an allowed upload
    raises, the exception leaves the handler as it is raised, and is no
    [HTTPException] of any status. *)
Lemma read_failure_is_not_mapped :
  content_type_allowed png_file = true
  /\ analyze_invoice_reading offline_ext png_file
       (Some "I/O operation on closed file.")
     = ([FileRead], inl (OtherException "I/O operation on closed file."))
  /\ forall c d,
       outcome (analyze_invoice_reading offline_ext png_file
                  (Some "I/O operation on closed file."))
       <> inl (HTTPException c d).
Proof.
  split; [reflexivity | split; [reflexivity |]].
  intros c d. discriminate.
Qed.

(** C10: a record returned by the endpoint has a string [total_amount]:
    a string of the reply as it is, a number of the reply, integer or not,
    as the [.2f] text of its float. *)
Theorem returned_total_amount_is_string (ext : externals) (file : UploadFile)
    (tr : list event) (r : InvoiceData) :
  analyze_invoice ext file = (tr, inr r) ->
  isinstance_float (total_amount r) = false
  /\ exists text j v,
       json_loads ext text = Some j
       /\ json_field j "total_amount" = Some v
       /\ match v with
          | JStr s => total_amount r = AStr s
          | JInt n => total_amount r = AStr (Py.format_2f (Py.float_of_int n))
          | JFloat x => total_amount r = AStr (Py.format_2f x)
          | _ => exists s, total_amount r = AStr s
          end.
Proof.
  intros Ha.
  apply analyze_invoice_ok_inv in Ha
    as (_ & tr0 & response & text & j & invoice & _ & _ & _ & Hj & Hv & ->).
  split.
  - destruct (normalize_invoice_is_str invoice) as [s ->]. reflexivity.
  - apply model_validate_ok_inv in Hv as (o & -> & _ & _ & _ & _ & Ht & _).
    destruct (validate_total_amount_present _ _ Ht) as [v Hv].
    exists text, (JObject o), v. split; [exact Hj | split; [exact Hv |]].
    rewrite Hv in Ht. unfold validate_total_amount in Ht.
    destruct v as [| b | n | x | s | items | o']; simpl in Ht;
      inversion Ht as [Heq]; symmetry in Heq;
      try (rewrite (normalize_invoice_float invoice _ Heq); simpl; eauto).
    rewrite (normalize_invoice_str invoice _ Heq). exact Heq.
Qed.

Lemma returned_total_amount_is_string_integer :
  exists tr r,
    analyze_invoice (sample_ext [] bare_text) png_file = (tr, inr r)
    /\ json_field bare_json "total_amount" = Some (JInt 250)
    /\ total_amount r = AStr "250.00"
    /\ isinstance_float (total_amount r) = false.
Proof.
  eexists _, _. split; [reflexivity |]. split; [reflexivity |].
  split; [reflexivity |].
  exact (proj1 (returned_total_amount_is_string (sample_ext [] bare_text)
                  png_file _ _ eq_refl)).
Defined.

(** ** The scenarios of the specification, run *)

(** A PDF with text, a model that answers with the Acme record: the amount
    250.0 is returned as "250.00" and the other fields as the model gave
    them. *)
Example pdf_happy_path :
  outcome (analyze_invoice
             (sample_ext ["Acme Ltd
"; "Invoice #1001
Total: 250.00 USD"] acme_text) pdf_file)
  = inr {| vendor := Some "Acme Ltd"; invoice_number := Some "1001";
           invoice_date := None; due_date := None;
           total_amount := AStr "250.00"; currency := Some "USD";
           valid := true |}.
Proof. vm_compute. reflexivity. Qed.

(** An image, a reply without vendor and with [valid] false: both are
    returned as they came. *)
Example image_missing_vendor :
  outcome (analyze_invoice (sample_ext [] bare_text) png_file)
  = inr {| vendor := None; invoice_number := None;
           invoice_date := None; due_date := None;
           total_amount := AStr "250.00"; currency := Some "USD";
           valid := false |}.
Proof. vm_compute. reflexivity. Qed.

(** A reply that is no JSON at all is a 500 as well. *)
Example reply_not_json :
  outcome (analyze_invoice (sample_ext [] "Sorry, I cannot read this.") png_file)
  = inl (HTTPException 500 "1 validation error(s) for InvoiceData").
Proof. vm_compute. reflexivity. Qed.

(** Rounding goes by the exact binary value, ties to the even digit. *)
Example format_2f_rounding :
  Py.format_2f 0.125 = "0.12" /\ Py.format_2f 0.375 = "0.38"
  /\ Py.format_2f 2.675 = "2.67" /\ Py.format_2f (-0.001) = "-0.00"
  /\ Py.format_2f 250 = "250.00" /\ Py.format_2f infinity = "inf".
Proof. repeat split; vm_compute; reflexivity. Qed.

(** The helpers on the values Python gives for them. *)
Example strip_and_b64encode :
  Py.strip "
  Total: 250.00 USD 	" = "Total: 250.00 USD"
  /\ Py.b64encode [xff; xfe; xfd; x00; x01]%byte = "//79AAE="
  /\ Py.b64encode [x89; x50; x4e; x47]%byte = "iVBORw==".
Proof. repeat split; vm_compute; reflexivity. Qed.

(** * Further properties of the code *)

(** ** Start of the process *)

(** The process starts exactly when BASE_URL, API_KEY and MODEL_NAME are
    all set to a non-empty string, with these three values as its
    settings; a variable that is unset or set to the empty string stops it
    with the [ValueError] that names the three variables. *)
Theorem load_settings_spec (getenv : string -> option string) :
  (forall cfg,
     load_settings getenv = inr cfg <->
     getenv "BASE_URL" = Some (base_url cfg) /\ base_url cfg <> ""
     /\ getenv "API_KEY" = Some (api_key cfg) /\ api_key cfg <> ""
     /\ getenv "MODEL_NAME" = Some (model_name cfg) /\ model_name cfg <> "")
  /\ (forall e,
        load_settings getenv = inl e ->
        e = OtherException "Please set BASE_URL, API_KEY, and MODEL_NAME in .env"
        /\ exists name,
             name ∈ ["BASE_URL"; "API_KEY"; "MODEL_NAME"]
             /\ (getenv name = None \/ getenv name = Some "")).
Proof.
  unfold load_settings. cbv zeta. split.
  - intros [u k m]. simpl.
    destruct (getenv "BASE_URL") as [[| c1 u'] |];
      destruct (getenv "API_KEY") as [[| c2 k'] |];
      destruct (getenv "MODEL_NAME") as [[| c3 m'] |]; simpl;
      (split; [intros H; inversion H; subst; repeat split; discriminate
              | intros (H1 & N1 & H2 & N2 & H3 & N3);
                inversion H1; inversion H2; inversion H3; subst;
                try congruence]).
  - intros e.
    destruct (getenv "BASE_URL") as [[| c1 u'] |] eqn:E1;
      [| destruct (getenv "API_KEY") as [[| c2 k'] |] eqn:E2;
         [| destruct (getenv "MODEL_NAME") as [[| c3 m'] |] eqn:E3 |] |];
      simpl; intros H; inversion H; subst; (split; [reflexivity |]).
    + exists "BASE_URL". split; [set_solver | auto].
    + exists "API_KEY". split; [set_solver | auto].
    + exists "MODEL_NAME". split; [set_solver | auto].
    + exists "MODEL_NAME". split; [set_solver | auto].
    + exists "API_KEY". split; [set_solver | auto].
    + exists "BASE_URL". split; [set_solver | auto].
Qed.

Lemma load_settings_spec_sample :
  load_settings (getenv_of (<["BASE_URL" := "https://llm.example/v1"]>
                           (<["API_KEY" := "secret"]>
                           (<["MODEL_NAME" := "vision-1"]> ∅))))
  = inr {| base_url := "https://llm.example/v1"; api_key := "secret";
           model_name := "vision-1" |}
  /\ load_settings (getenv_of (<["BASE_URL" := "https://llm.example/v1"]>
                              (<["API_KEY" := ""]>
                              (<["MODEL_NAME" := "vision-1"]> ∅))))
     = inl (OtherException "Please set BASE_URL, API_KEY, and MODEL_NAME in .env").
Proof.
  split.
  - apply (proj1 (load_settings_spec _)). simpl.
    repeat split; try reflexivity; discriminate.
  - destruct (load_settings (getenv_of (<["BASE_URL" := "https://llm.example/v1"]>
                              (<["API_KEY" := ""]>
                              (<["MODEL_NAME" := "vision-1"]> ∅))))) as [e | cfg] eqn:E.
    + destruct (proj2 (load_settings_spec _) e E) as [-> _]. reflexivity.
    + apply (proj1 (load_settings_spec _)) in E.
      destruct E as (_ & _ & Hk & Hne & _).
      vm_compute in Hk. inversion Hk as [Hk']. symmetry in Hk'. contradiction.
Defined.

(** ** Strings *)

Lemma str_app_nil_r (s : string) : s +:+ "" = s.
Proof.
  induction s as [| c s IH]; [reflexivity |].
  change (String c s +:+ "") with (String c (s +:+ "")). rewrite IH. reflexivity.
Qed.

Lemma str_app_assoc (s t u : string) : (s +:+ t) +:+ u = s +:+ (t +:+ u).
Proof.
  induction s as [| c s IH]; [reflexivity |].
  change (String c ((s +:+ t) +:+ u) = String c (s +:+ (t +:+ u))).
  rewrite IH. reflexivity.
Qed.

Lemma str_app_length (s t : string) :
  String.length (s +:+ t) = (String.length s + String.length t)%nat.
Proof.
  induction s as [| c s IH]; [reflexivity |].
  change (S (String.length (s +:+ t)) = S (String.length s + String.length t)).
  rewrite IH. reflexivity.
Qed.

Lemma str_app_chars (s t : string) :
  list_ascii_of_string (s +:+ t)
  = (list_ascii_of_string s ++ list_ascii_of_string t)%list.
Proof.
  induction s as [| c s IH]; [reflexivity |].
  change (c :: list_ascii_of_string (s +:+ t)
          = c :: (list_ascii_of_string s ++ list_ascii_of_string t)%list).
  rewrite IH. reflexivity.
Qed.

Lemma chars_inj (s t : string) :
  list_ascii_of_string s = list_ascii_of_string t -> s = t.
Proof.
  intros H. rewrite <- (string_of_list_ascii_of_string s),
    <- (string_of_list_ascii_of_string t), H. reflexivity.
Qed.

Lemma rev_app_chars (s1 s2 : string) :
  list_ascii_of_string (String.rev_app s1 s2)
  = (rev (list_ascii_of_string s1) ++ list_ascii_of_string s2)%list.
Proof.
  revert s2. induction s1 as [| c s1 IH]; intros s2; simpl; [reflexivity |].
  rewrite IH. simpl. rewrite <- app_assoc. reflexivity.
Qed.

Lemma rev_chars (s : string) :
  list_ascii_of_string (String.rev s) = rev (list_ascii_of_string s).
Proof. unfold String.rev. rewrite rev_app_chars. simpl. apply app_nil_r. Qed.

Lemma rev_rev (s : string) : String.rev (String.rev s) = s.
Proof. apply chars_inj. rewrite !rev_chars. apply rev_involutive. Qed.

Lemma rev_app_str (s t : string) :
  String.rev (s +:+ t) = String.rev t +:+ String.rev s.
Proof.
  apply chars_inj.
  rewrite rev_chars, !str_app_chars, !rev_chars. apply rev_app_distr.
Qed.

Lemma rev_str_length (s : string) :
  String.length (String.rev s) = String.length s.
Proof.
  assert (Hl : forall t, String.length t = length (list_ascii_of_string t))
    by (intros t; induction t as [| c t IH]; simpl; [| rewrite IH]; reflexivity).
  rewrite !Hl, rev_chars. apply length_rev.
Qed.

Lemma rev_empty (s : string) : String.rev s = "" <-> s = "".
Proof.
  split; [| intros ->; reflexivity].
  intros H. rewrite <- (rev_rev s), H. reflexivity.
Qed.

Lemma strip_prefix_spec (t s r : string) :
  Py.strip_prefix t s = Some r <-> s = t +:+ r.
Proof.
  revert s. induction t as [| a t IH]; intros s; simpl.
  - split; [intros [= ->] | intros ->]; reflexivity.
  - destruct s as [| b s]; [split; discriminate |].
    change (String a t +:+ r) with (String a (t +:+ r)).
    destruct (Ascii.eqb_spec a b) as [-> | Hne].
    + rewrite IH. split; [intros -> | intros [= ->]]; reflexivity.
    + split; [discriminate | intros [= -> _]; congruence].
Qed.

Lemma common_prefix (t t' r r' : string) :
  t +:+ r = t' +:+ r' -> is_prefix t t' = true \/ is_prefix t' t = true.
Proof.
  unfold is_prefix. revert t'. induction t as [| a t IH]; intros t' H.
  - left. reflexivity.
  - destruct t' as [| b t']; [right; reflexivity |].
    change (String a (t +:+ r) = String b (t' +:+ r')) in H.
    injection H as -> H. simpl. rewrite Ascii.eqb_refl. apply IH, H.
Qed.

(** ** Stripping a set of tokens *)

Section Tokens.

Variable ts : list string.
Hypothesis ts_nonempty : forall t, t ∈ ts -> t <> "".

Lemma strip_first_some (s r : string) :
  Py.strip_first ts s = Some r -> exists t, t ∈ ts /\ s = t +:+ r.
Proof.
  clear ts_nonempty. induction ts as [| t ts' IH]; simpl; [discriminate |].
  destruct (Py.strip_prefix t s) as [r' |] eqn:E.
  - intros [= ->]. exists t. split; [left | apply strip_prefix_spec, E].
  - intros H. destruct (IH H) as (t' & Hin & Hs). exists t'.
    split; [right; exact Hin | exact Hs].
Qed.

Lemma strip_first_none (s : string) :
  Py.strip_first ts s = None -> forall t r, t ∈ ts -> s <> t +:+ r.
Proof.
  clear ts_nonempty. induction ts as [| t0 ts' IH]; simpl.
  - intros _ t r Hin. inversion Hin.
  - destruct (Py.strip_prefix t0 s) as [r' |] eqn:E; [discriminate |].
    intros H t r Hin Hs. apply elem_of_cons in Hin as [-> | Hin].
    + apply strip_prefix_spec in Hs. congruence.
    + exact (IH H t r Hin Hs).
Qed.

Lemma strip_first_empty : Py.strip_first ts "" = None.
Proof.
  destruct (Py.strip_first ts "") as [r |] eqn:E; [| reflexivity].
  destruct (strip_first_some _ _ E) as (t & Hin & Hs).
  destruct t; [exfalso; exact (ts_nonempty _ Hin eq_refl) | discriminate].
Qed.

Lemma token_shortens (t r : string) :
  t ∈ ts -> (String.length r < String.length (t +:+ r))%nat.
Proof.
  intros Hin. rewrite str_app_length.
  destruct t; [exfalso; exact (ts_nonempty _ Hin eq_refl) | simpl; lia].
Qed.

Lemma tokens_text_app (a b : string) :
  tokens_text ts a -> tokens_text ts b -> tokens_text ts (a +:+ b).
Proof.
  intros Ha Hb. induction Ha as [| t s Hin Hs IH]; [exact Hb |].
  rewrite str_app_assoc. apply tokens_cons; assumption.
Qed.

Lemma lstrip_tokens_decomp (n : nat) (s : string) :
  exists w, tokens_text ts w /\ s = w +:+ Py.lstrip_tokens ts n s.
Proof.
  revert s. induction n as [| n IH]; intros s; simpl.
  - exists "". split; [constructor | reflexivity].
  - destruct (Py.strip_first ts s) as [r |] eqn:E.
    + destruct (strip_first_some _ _ E) as (t & Hin & ->).
      destruct (IH r) as (w & Hw & Hr). exists (t +:+ w).
      split; [apply tokens_cons; assumption |].
      rewrite str_app_assoc, <- Hr. reflexivity.
    + exists "". split; [constructor | reflexivity].
Qed.

Lemma lstrip_tokens_done (n : nat) (s : string) :
  (String.length s <= n)%nat ->
  Py.strip_first ts (Py.lstrip_tokens ts n s) = None.
Proof.
  revert s. induction n as [| n IH]; intros s Hlen; simpl.
  - destruct s; [apply strip_first_empty | simpl in Hlen; lia].
  - destruct (Py.strip_first ts s) as [r |] eqn:E; [| exact E].
    destruct (strip_first_some _ _ E) as (t & Hin & ->).
    apply IH. pose proof (token_shortens t r Hin). lia.
Qed.

Lemma lstrip_tokens_empty_inv (n : nat) (s : string) :
  Py.lstrip_tokens ts n s = "" -> tokens_text ts s.
Proof.
  intros H. destruct (lstrip_tokens_decomp n s) as (w & Hw & Hs).
  rewrite H, str_app_nil_r in Hs. subst. exact Hw.
Qed.

Hypothesis ts_prefix_free :
  forall t t', t ∈ ts -> t' ∈ ts -> is_prefix t t' = true -> t = t'.

Lemma strip_first_token (t r : string) :
  t ∈ ts -> Py.strip_first ts (t +:+ r) = Some r.
Proof.
  intros Hin. destruct (Py.strip_first ts (t +:+ r)) as [r' |] eqn:E.
  - destruct (strip_first_some _ _ E) as (t' & Hin' & Hs).
    assert (Ht : t = t').
    { destruct (common_prefix _ _ _ _ Hs) as [H | H].
      - apply ts_prefix_free; assumption.
      - symmetry. apply ts_prefix_free; assumption. }
    subst t'. apply (inj (String.app t)) in Hs. congruence.
  - exfalso. exact (strip_first_none _ E t r Hin eq_refl).
Qed.

Lemma lstrip_tokens_text (n : nat) (s : string) :
  tokens_text ts s -> (String.length s <= n)%nat ->
  Py.lstrip_tokens ts n s = "".
Proof.
  intros Hs. revert n. induction Hs as [| t s Hin Hs IH]; intros n Hlen.
  - destruct n; simpl; [| rewrite strip_first_empty]; reflexivity.
  - pose proof (token_shortens t s Hin).
    destruct n as [| n]; [lia |]. simpl.
    rewrite (strip_first_token t s Hin). apply IH. lia.
Qed.

End Tokens.

Lemma tokens_text_rev (ts : list string) (s : string) :
  tokens_text ts s -> tokens_text (map String.rev ts) (String.rev s).
Proof.
  intros Hs. induction Hs as [| t s Hin Hs IH]; [constructor |].
  rewrite rev_app_str. apply tokens_text_app; [exact IH |].
  rewrite <- (str_app_nil_r (String.rev t)).
  apply tokens_cons; [| constructor].
  apply list_elem_of_In, in_map, list_elem_of_In, Hin.
Qed.

Lemma tokens_text_rev_inv (ts : list string) (s : string) :
  tokens_text (map String.rev ts) (String.rev s) -> tokens_text ts s.
Proof.
  intros H. apply tokens_text_rev in H.
  rewrite rev_rev, map_map in H.
  rewrite (map_ext _ (fun t => t) rev_rev), map_id in H. exact H.
Qed.

(** ** White space and [strip] *)

Lemma forallb_elem_of {A} (f : A -> bool) (l : list A) (x : A) :
  forallb f l = true -> x ∈ l -> f x = true.
Proof.
  intros H Hin. rewrite forallb_forall in H. apply H, list_elem_of_In, Hin.
Qed.

Lemma space_tokens_nonempty (t : string) : t ∈ Py.SPACE_TOKENS -> t <> "".
Proof.
  intros Hin ->.
  assert (H : forallb (fun t => negb (String.eqb t "")) Py.SPACE_TOKENS = true)
    by (vm_compute; reflexivity).
  pose proof (forallb_elem_of _ _ _ H Hin) as Hf. discriminate.
Qed.

Lemma rev_space_tokens_nonempty (t : string) :
  t ∈ map String.rev Py.SPACE_TOKENS -> t <> "".
Proof.
  intros Hin ->.
  assert (H : forallb (fun t => negb (String.eqb t ""))
                (map String.rev Py.SPACE_TOKENS) = true)
    by (vm_compute; reflexivity).
  pose proof (forallb_elem_of _ _ _ H Hin) as Hf. discriminate.
Qed.

Lemma space_tokens_prefix_free (t t' : string) :
  t ∈ Py.SPACE_TOKENS -> t' ∈ Py.SPACE_TOKENS ->
  is_prefix t t' = true -> t = t'.
Proof.
  intros Hin Hin' Hp.
  assert (H : forallb (fun t =>
                forallb (fun t' => implb (is_prefix t t') (String.eqb t t'))
                  Py.SPACE_TOKENS) Py.SPACE_TOKENS = true)
    by (vm_compute; reflexivity).
  pose proof (forallb_elem_of _ _ _ (forallb_elem_of _ _ _ H Hin) Hin') as Hf.
  cbv beta in Hf. rewrite Hp in Hf. apply String.eqb_eq, Hf.
Qed.

Lemma white_space_only_tokens (s : string) :
  white_space_only s <-> tokens_text Py.SPACE_TOKENS s.
Proof.
  split; intros H.
  - induction H as [| cp s Hin Hs IH]; [apply tokens_nil |].
    apply tokens_cons; [| exact IH].
    apply list_elem_of_In, in_map, list_elem_of_In, Hin.
  - induction H as [| t s Hin Hs IH]; [apply ws_empty |].
    apply list_elem_of_In, in_map_iff in Hin as (cp & <- & Hcp).
    apply ws_char; [apply list_elem_of_In, Hcp | exact IH].
Qed.

Lemma white_space_only_app (s t : string) :
  white_space_only s -> white_space_only t -> white_space_only (s +:+ t).
Proof.
  rewrite !white_space_only_tokens. apply tokens_text_app.
Qed.

Lemma lstrip_no_leading_space (s : string) :
  Py.strip_first Py.SPACE_TOKENS (Py.lstrip s) = None.
Proof.
  unfold Py.lstrip.
  apply (lstrip_tokens_done _ space_tokens_nonempty). lia.
Qed.

Lemma strip_empty_iff (s : string) :
  Py.strip s = "" <-> white_space_only s.
Proof.
  rewrite white_space_only_tokens. unfold Py.strip, Py.rstrip. split.
  - intros H. apply rev_empty, lstrip_tokens_empty_inv, tokens_text_rev_inv in H.
    unfold Py.lstrip in H.
    destruct (lstrip_tokens_decomp Py.SPACE_TOKENS (String.length s) s)
      as (w & Hw & Hs).
    rewrite Hs. apply tokens_text_app; assumption.
  - intros H.
    assert (Hl : Py.lstrip s = "")
      by (apply (lstrip_tokens_text _ space_tokens_nonempty
                   space_tokens_prefix_free); [exact H | lia]).
    rewrite Hl. reflexivity.
Qed.

Lemma strip_no_leading_space (s : string) : ~ starts_with_space (Py.strip s).
Proof.
  intros (cp & r & Hcp & Hs). unfold Py.strip, Py.rstrip in Hs.
  set (u := Py.lstrip s) in *.
  destruct (lstrip_tokens_decomp (map String.rev Py.SPACE_TOKENS)
              (String.length u) (String.rev u)) as (w & _ & Hu).
  apply (f_equal String.rev) in Hu. rewrite rev_rev, rev_app_str, Hs in Hu.
  rewrite str_app_assoc in Hu.
  apply (strip_first_none _ _ (lstrip_no_leading_space s) (Py.utf8 cp)
           (r +:+ String.rev w)); [| exact Hu].
  apply list_elem_of_In, in_map, list_elem_of_In, Hcp.
Qed.

Lemma strip_no_trailing_space (s : string) : ~ ends_with_space (Py.strip s).
Proof.
  intros (cp & r & Hcp & Hs). unfold Py.strip, Py.rstrip in Hs.
  set (u := Py.lstrip s) in *.
  apply (f_equal String.rev) in Hs. rewrite rev_rev, rev_app_str in Hs.
  assert (Hdone : Py.strip_first (map String.rev Py.SPACE_TOKENS)
                    (Py.lstrip_tokens (map String.rev Py.SPACE_TOKENS)
                       (String.length u) (String.rev u)) = None)
    by (apply (lstrip_tokens_done _ rev_space_tokens_nonempty);
        rewrite rev_str_length; lia).
  apply (strip_first_none _ _ Hdone (String.rev (Py.utf8 cp)) (String.rev r));
    [| exact Hs].
  apply list_elem_of_In, in_map, in_map, list_elem_of_In, Hcp.
Qed.

Lemma pages_text_from (pages : list string) (acc : string) :
  fold_left (fun text page => text +:+ page) pages acc
  = acc +:+ pages_text pages.
Proof.
  unfold pages_text. revert acc.
  induction pages as [| p pages IH]; intros acc; cbn [fold_left].
  - symmetry. apply str_app_nil_r.
  - rewrite IH, (IH ("" +:+ p)). change ("" +:+ p) with p.
    apply str_app_assoc.
Qed.

Lemma pages_text_concat (pages : list string) :
  pages_text pages = String.concat "" pages.
Proof.
  induction pages as [| p pages IH]; [reflexivity |].
  unfold pages_text. cbn [fold_left]. change ("" +:+ p) with p.
  rewrite pages_text_from, IH.
  destruct pages as [| q pages]; [apply str_app_nil_r | reflexivity].
Qed.

Lemma white_space_only_pages (pages : list string) :
  Forall white_space_only pages -> white_space_only (pages_text pages).
Proof.
  induction 1 as [| p pages Hp Hps IH]; [constructor |].
  unfold pages_text. cbn [fold_left]. change ("" +:+ p) with p.
  rewrite pages_text_from. apply white_space_only_app; assumption.
Qed.

(** ** The PDF branch, further *)

Lemma extract_text_from_pdf_pages (ext : externals) (pdf_bytes : Py.bytes)
    (pages : list string) :
  fitz_page_texts ext pdf_bytes = inr pages ->
  extract_text_from_pdf ext pdf_bytes
  = ([FitzOpen pdf_bytes], inr (Py.strip (pages_text pages))).
Proof.
  intros H. unfold extract_text_from_pdf, call. rewrite H. reflexivity.
Qed.

Lemma truthy_false (s : string) : Py.truthy s = false <-> s = "".
Proof. destruct s; simpl; split; congruence. Qed.

(** The text extracted from a PDF is the text of its pages joined in page
    order and stripped: it neither starts nor ends with a white-space
    character, of the Unicode ones as well, and it is empty exactly when
    the pages together hold white space only (so when every page does, or
    there is no page). The one call made is the opening of the document. *)
Theorem extract_text_from_pdf_spec (ext : externals) (pdf_bytes : Py.bytes)
    (pages : list string) :
  fitz_page_texts ext pdf_bytes = inr pages ->
  exists text,
    extract_text_from_pdf ext pdf_bytes = ([FitzOpen pdf_bytes], inr text)
    /\ text = Py.strip (String.concat "" pages)
    /\ ~ starts_with_space text
    /\ ~ ends_with_space text
    /\ (text = "" <-> white_space_only (String.concat "" pages))
    /\ (Forall white_space_only pages -> text = "").
Proof.
  intros H. exists (Py.strip (pages_text pages)).
  split; [apply extract_text_from_pdf_pages, H |].
  split; [rewrite pages_text_concat; reflexivity |].
  split; [apply strip_no_leading_space |].
  split; [apply strip_no_trailing_space |].
  rewrite <- pages_text_concat. split; [apply strip_empty_iff |].
  intros Hp. apply strip_empty_iff, white_space_only_pages, Hp.
Qed.

Lemma extract_text_from_pdf_spec_sample :
  exists text,
    extract_text_from_pdf
      (sample_ext [Py.utf8 12288 +:+ " Acme Ltd
"; "Total: 250.00 USD" +:+ Py.utf8 160 +:+ Py.utf8 8232] acme_text)
      (file_contents pdf_file)
    = ([FitzOpen (file_contents pdf_file)], inr text)
    /\ text = "Acme Ltd
Total: 250.00 USD".
Proof.
  destruct (extract_text_from_pdf_spec
              (sample_ext [Py.utf8 12288 +:+ " Acme Ltd
"; "Total: 250.00 USD" +:+ Py.utf8 160 +:+ Py.utf8 8232] acme_text)
              (file_contents pdf_file) _ eq_refl) as (text & He & Ht & _).
  exists text. split; [exact He |]. rewrite Ht. reflexivity.
Defined.

Lemma query_model_pdf (ext : externals) (file : UploadFile)
    (pages : list string) :
  is_pdf file = true ->
  fitz_page_texts ext (file_contents file) = inr pages ->
  let text := Py.strip (pages_text pages) in
  query_model ext file (file_contents file)
  = if Py.truthy text then
      (FitzOpen (file_contents file)
         :: trace (create ext (pdf_request ext text)),
       outcome (create ext (pdf_request ext text)))
    else
      ([FitzOpen (file_contents file)],
       inl (HTTPException 400
              "No readable text found in PDF (possibly scanned)")).
Proof.
  intros Hpdf Hp text. unfold query_model. rewrite Hpdf.
  rewrite (extract_text_from_pdf_pages ext _ pages Hp). cbn [bind].
  fold text. destruct (Py.truthy text); simpl; [| reflexivity].
  destruct (create ext (pdf_request ext text)). reflexivity.
Qed.

Lemma query_model_image (ext : externals) (file : UploadFile)
    (file_bytes : Py.bytes) :
  is_pdf file = false ->
  query_model ext file file_bytes
  = create ext (image_request ext file (Py.b64encode file_bytes)).
Proof. intros H. unfold query_model. rewrite H. reflexivity. Qed.

Lemma create_trace (ext : externals) (request : ChatRequest) :
  trace (create ext request) = [ChatCreate request].
Proof.
  unfold create, call. destruct (chat_completions_create ext request);
    reflexivity.
Qed.

Lemma try_body_trace (ext : externals) (file : UploadFile)
    (file_bytes : Py.bytes) :
  trace (try_body ext file file_bytes)
  = trace (query_model ext file file_bytes).
Proof.
  destruct (try_body ext file file_bytes) as [tr [e | r]] eqn:Hb.
  - apply try_body_raise_inv in Hb as [Hq | (response & Hq & _)];
      rewrite Hq; reflexivity.
  - apply try_body_ok_inv in Hb as (response & text & j & inv & Hq & _).
    rewrite Hq. reflexivity.
Qed.

Lemma analyze_invoice_trace_supported (ext : externals) (file : UploadFile) :
  content_type_allowed file = true ->
  trace (analyze_invoice ext file)
  = FileRead :: trace (query_model ext file (file_contents file)).
Proof.
  intros Hok. rewrite (analyze_invoice_supported ext file Hok). cbn [trace fst].
  f_equal. rewrite <- try_body_trace.
  unfold try_except. destruct (try_body ext file (file_contents file))
    as [tr [e | r]]; [| reflexivity].
  rewrite on_exception_raises. cbn. apply app_nil_r.
Qed.

Lemma pdf_blank_is_400 (ext : externals) (file : UploadFile)
    (pages : list string) :
  content_type file = Some "application/pdf" ->
  fitz_page_texts ext (file_contents file) = inr pages ->
  Py.strip (pages_text pages) = "" ->
  analyze_invoice ext file
  = ([FileRead; FitzOpen (file_contents file)],
     inl (HTTPException 400 "No readable text found in PDF (possibly scanned)")).
Proof.
  intros Hct Hp Hs. destruct (is_pdf_allowed file Hct) as [Hpdf Hok].
  apply (analyze_invoice_failed ext file [FitzOpen (file_contents file)]
           (HTTPException 400 "No readable text found in PDF (possibly scanned)")
           Hok).
  unfold try_body. rewrite (query_model_pdf ext file pages Hpdf Hp).
  cbv zeta. rewrite Hs. reflexivity.
Qed.

(** A PDF is answered with the 400 of a document without readable text
    exactly when the texts of its pages together hold white space only,
    Unicode white space included (a document without pages among them);
    for any other PDF the model is called once, with the prompt followed
    by the stripped text. *)
Theorem pdf_without_text_iff_blank (ext : externals) (file : UploadFile)
    (pages : list string) :
  content_type file = Some "application/pdf" ->
  fitz_page_texts ext (file_contents file) = inr pages ->
  (outcome (analyze_invoice ext file)
   = inl (HTTPException 400 "No readable text found in PDF (possibly scanned)")
   <-> white_space_only (String.concat "" pages))
  /\ (~ white_space_only (String.concat "" pages) ->
      trace (analyze_invoice ext file)
      = [FileRead; FitzOpen (file_contents file);
         ChatCreate (pdf_request ext (Py.strip (String.concat "" pages)))]).
Proof.
  intros Hct Hp. destruct (is_pdf_allowed file Hct) as [Hpdf Hok].
  pose proof (query_model_pdf ext file pages Hpdf Hp) as Hq. cbv zeta in Hq.
  rewrite <- pages_text_concat. rewrite <- strip_empty_iff. split.
  - split.
    + intros Ho.
      destruct (try_body ext file (file_contents file)) as [tr [e | r]] eqn:Hbody.
      * rewrite (analyze_invoice_failed ext file tr e Hok Hbody) in Ho.
        cbn in Ho. destruct e as [c d | errs | msg]; try discriminate.
        apply try_body_http_inv in Hbody as (_ & _ & Hex).
        rewrite (extract_text_from_pdf_pages ext _ pages Hp) in Hex.
        inversion Hex as [[Htr Hs]]. reflexivity.
      * rewrite (analyze_invoice_supported ext file Hok), Hbody in Ho.
        discriminate.
    + intros Hs. rewrite (pdf_blank_is_400 ext file pages Hct Hp Hs).
      reflexivity.
  - intros Hs.
    destruct (Py.truthy (Py.strip (pages_text pages))) eqn:Ht;
      [| apply truthy_false in Ht; contradiction].
    rewrite (analyze_invoice_trace_supported ext file Hok), Hq.
    cbn [trace fst]. rewrite create_trace. reflexivity.
Qed.

Lemma pdf_without_text_iff_blank_sample :
  outcome (analyze_invoice (sample_ext [Py.utf8 12288; "
	"; ""] acme_text) pdf_file)
  = inl (HTTPException 400 "No readable text found in PDF (possibly scanned)")
  /\ trace (analyze_invoice (sample_ext [" Acme Ltd "; "
"] acme_text) pdf_file)
     = [FileRead; FitzOpen (file_contents pdf_file);
        ChatCreate (pdf_request (sample_ext [" Acme Ltd "; "
"] acme_text) "Acme Ltd")].
Proof.
  split.
  - apply (proj1 (pdf_without_text_iff_blank (sample_ext [Py.utf8 12288; "
	"; ""] acme_text) pdf_file _ eq_refl eq_refl)).
    apply strip_empty_iff. reflexivity.
  - apply (proj2 (pdf_without_text_iff_blank (sample_ext [" Acme Ltd "; "
"] acme_text) pdf_file _ eq_refl eq_refl)).
    intros H. apply strip_empty_iff in H. discriminate.
Defined.

(** When PyMuPDF cannot open or read the document, the handler answers
    with status 500 and the message of the library's exception; the model
    is not called. *)
Theorem pdf_unreadable_is_500 (ext : externals) (file : UploadFile)
    (msg : string) :
  content_type file = Some "application/pdf" ->
  fitz_page_texts ext (file_contents file) = inl msg ->
  analyze_invoice ext file
  = ([FileRead; FitzOpen (file_contents file)], inl (HTTPException 500 msg)).
Proof.
  intros Hct Hp. destruct (is_pdf_allowed file Hct) as [Hpdf Hok].
  apply (analyze_invoice_failed ext file _ (OtherException msg) Hok).
  unfold try_body, query_model, extract_text_from_pdf, call.
  rewrite Hpdf, Hp. reflexivity.
Qed.

Lemma pdf_unreadable_is_500_sample :
  analyze_invoice broken_pdf_ext pdf_file
  = ([FileRead; FitzOpen (file_contents pdf_file)],
     inl (HTTPException 500 "Failed to open stream")).
Proof.
  apply (pdf_unreadable_is_500 broken_pdf_ext pdf_file); reflexivity.
Defined.

(** ** The calls of a request *)

Lemma request_of_trace (ext : externals) (file : UploadFile)
    (read_failure : option string) (request : ChatRequest) :
  ChatCreate request ∈ trace (analyze_invoice_reading ext file read_failure) ->
  read_failure = None
  /\ ((is_pdf file = true
       /\ exists pages,
            fitz_page_texts ext (file_contents file) = inr pages
            /\ Py.strip (pages_text pages) <> ""
            /\ request = pdf_request ext (Py.strip (pages_text pages)))
      \/ (content_type_allowed file = true /\ is_pdf file = false
          /\ request
             = image_request ext file (Py.b64encode (file_contents file)))).
Proof.
  intros Hin.
  destruct (content_type_allowed file) eqn:Hok.
  - destruct read_failure as [msg |].
    { rewrite (analyze_invoice_read_failed ext file msg Hok) in Hin.
      apply elem_of_cons in Hin as [Hin | Hin]; [discriminate | inversion Hin]. }
    split; [reflexivity |].
    change (analyze_invoice_reading ext file None)
      with (analyze_invoice ext file) in Hin.
    rewrite (analyze_invoice_trace_supported ext file Hok) in Hin.
    apply elem_of_cons in Hin as [Hin | Hin]; [discriminate |].
    destruct (is_pdf file) eqn:Hpdf.
    + left. split; [reflexivity |].
      destruct (fitz_page_texts ext (file_contents file))
        as [msg | pages] eqn:Hp.
      * unfold query_model, extract_text_from_pdf, call in Hin.
        rewrite Hpdf, Hp in Hin. cbn in Hin.
        apply elem_of_cons in Hin as [Hin | Hin]; [discriminate |].
        inversion Hin.
      * pose proof (query_model_pdf ext file pages Hpdf Hp) as Hq.
        cbv zeta in Hq. rewrite Hq in Hin.
        destruct (Py.truthy (Py.strip (pages_text pages))) eqn:Ht;
          cbn [trace fst] in Hin;
          apply elem_of_cons in Hin as [Hin | Hin]; try discriminate.
        -- rewrite create_trace in Hin.
           apply elem_of_cons in Hin as [Hin | Hin]; [| inversion Hin].
           inversion Hin; subst.
           exists pages. split; [reflexivity |]. split; [| reflexivity].
           intros Hs. rewrite Hs in Ht. discriminate.
        -- inversion Hin.
    + right. split; [reflexivity |]. split; [reflexivity |].
      rewrite (query_model_image ext file _ Hpdf), create_trace in Hin.
      apply elem_of_cons in Hin as [Hin | Hin]; [| inversion Hin].
      inversion Hin. reflexivity.
  - unfold analyze_invoice_reading in Hin. rewrite Hok in Hin.
    inversion Hin.
Qed.

(** The external calls of one request, in order, are one of five
    sequences: none (content type refused); the read alone (the read
    raised, and its exception leaves the handler); the read and the
    opening of the PDF (extraction failed or found no text); the read, the
    opening of the PDF and one model call on the text extracted from it;
    the read and one model call on the image. So the model is called at
    most once, never before the file is read, PyMuPDF runs on PDFs only,
    and a record is returned only after exactly one model call. *)
Theorem analyze_invoice_calls (ext : externals) (file : UploadFile)
    (read_failure : option string) :
  let run := analyze_invoice_reading ext file read_failure in
  let b := file_contents file in
  ((content_type_allowed file = false /\ trace run = [])
   \/ (content_type_allowed file = true
       /\ exists msg, read_failure = Some msg
            /\ run = ([FileRead], inl (OtherException msg)))
   \/ (read_failure = None /\ is_pdf file = true
       /\ trace run = [FileRead; FitzOpen b]
       /\ exists e, outcome run = inl e)
   \/ (read_failure = None /\ is_pdf file = true
       /\ exists pages,
            fitz_page_texts ext b = inr pages
            /\ Py.strip (String.concat "" pages) <> ""
            /\ trace run
               = [FileRead; FitzOpen b;
                  ChatCreate (pdf_request ext
                                (Py.strip (String.concat "" pages)))])
   \/ (read_failure = None /\ content_type_allowed file = true
       /\ is_pdf file = false
       /\ trace run
          = [FileRead; ChatCreate (image_request ext file (Py.b64encode b))]))
  /\ (forall r, outcome run = inr r ->
      exists request,
        List.filter is_model_call (trace run) = [ChatCreate request]).
Proof.
  cbv zeta.
  set (run := analyze_invoice_reading ext file read_failure).
  assert (Hcases :
    (content_type_allowed file = false /\ trace run = [])
    \/ (content_type_allowed file = true
        /\ exists msg, read_failure = Some msg
             /\ run = ([FileRead], inl (OtherException msg)))
    \/ (read_failure = None /\ is_pdf file = true
        /\ trace run = [FileRead; FitzOpen (file_contents file)]
        /\ exists e, outcome run = inl e)
    \/ (read_failure = None /\ is_pdf file = true
        /\ exists pages,
             fitz_page_texts ext (file_contents file) = inr pages
             /\ Py.strip (String.concat "" pages) <> ""
             /\ trace run
                = [FileRead; FitzOpen (file_contents file);
                   ChatCreate (pdf_request ext
                                 (Py.strip (String.concat "" pages)))])
    \/ (read_failure = None /\ content_type_allowed file = true
        /\ is_pdf file = false
        /\ trace run
           = [FileRead;
              ChatCreate (image_request ext file
                            (Py.b64encode (file_contents file)))])).
  { subst run. destruct (content_type_allowed file) eqn:Hok.
    - right. destruct read_failure as [msg |].
      { left. split; [reflexivity |]. exists msg.
        split; [reflexivity | apply analyze_invoice_read_failed, Hok]. }
      right.
      change (analyze_invoice_reading ext file None)
        with (analyze_invoice ext file).
      rewrite (analyze_invoice_trace_supported ext file Hok).
      destruct (is_pdf file) eqn:Hpdf.
      + destruct (fitz_page_texts ext (file_contents file))
          as [msg | pages] eqn:Hp.
        * left. split; [reflexivity |]. split; [reflexivity |].
          assert (Hq : query_model ext file (file_contents file)
                      = ([FitzOpen (file_contents file)],
                         inl (OtherException msg)))
            by (unfold query_model, extract_text_from_pdf, call;
                rewrite Hpdf, Hp; reflexivity).
          rewrite Hq. split; [reflexivity |].
          exists (HTTPException 500 msg).
          rewrite (analyze_invoice_failed ext file
                     [FitzOpen (file_contents file)] (OtherException msg) Hok);
            [reflexivity |].
          unfold try_body. rewrite Hq. reflexivity.
        * pose proof (query_model_pdf ext file pages Hpdf Hp) as Hq.
          cbv zeta in Hq. rewrite Hq.
          destruct (Py.truthy (Py.strip (pages_text pages))) eqn:Ht.
          -- right. left. split; [reflexivity |]. split; [reflexivity |].
             exists pages. rewrite <- pages_text_concat.
             split; [reflexivity |]. split.
             ++ intros Hs. rewrite Hs in Ht. discriminate.
             ++ cbn [trace fst]. rewrite create_trace. reflexivity.
          -- left. split; [reflexivity |]. split; [reflexivity |].
             split; [reflexivity |]. eexists.
             assert (Hct : content_type file = Some "application/pdf").
             { unfold is_pdf in Hpdf. destruct (content_type file);
                 [| discriminate]. apply String.eqb_eq in Hpdf. congruence. }
             rewrite (pdf_blank_is_400 ext file pages Hct Hp);
               [reflexivity | apply truthy_false, Ht].
      + right. right. split; [reflexivity |].
        split; [reflexivity |]. split; [reflexivity |].
        rewrite (query_model_image ext file _ Hpdf), create_trace.
        reflexivity.
    - left. split; [reflexivity |].
      unfold analyze_invoice_reading. rewrite Hok. reflexivity. }
  split; [exact Hcases |].
  intros r Hr.
  destruct Hcases as [[Hno Ht] | [(_ & msg & _ & Hrun) | [(_ & _ & Ht & e & He)
    | [(_ & _ & pages & _ & _ & Ht) | (_ & _ & _ & Ht)]]]].
  - exfalso. subst run. unfold analyze_invoice_reading in Hr.
    rewrite Hno in Hr. discriminate.
  - rewrite Hrun in Hr. discriminate.
  - rewrite He in Hr. discriminate.
  - rewrite Ht. eexists. reflexivity.
  - rewrite Ht. eexists. reflexivity.
Qed.

Lemma analyze_invoice_calls_sample :
  (exists request,
     List.filter is_model_call
       (trace (analyze_invoice_reading (sample_ext ["Acme Ltd"] acme_text)
                 pdf_file None))
     = [ChatCreate request])
  /\ trace (analyze_invoice_reading (sample_ext ["Acme Ltd"] acme_text)
              pdf_file (Some "I/O operation on closed file."))
     = [FileRead].
Proof.
  split.
  - exact (proj2 (analyze_invoice_calls (sample_ext ["Acme Ltd"] acme_text)
                    pdf_file None) _ eq_refl).
  - reflexivity.
Defined.

(** Every request sent to the model is sent after a read that succeeded,
    names the configured model, has temperature 0 and two messages, from
    the system and from the user; the user message carries the prompt
    unchanged: followed by the text extracted from this PDF, stripped and
    not empty, for a PDF, and beside a data URI of the declared content
    type and the base64 of the file's bytes for an image. *)
Theorem model_request_shape (ext : externals) (file : UploadFile)
    (read_failure : option string) (request : ChatRequest) :
  ChatCreate request ∈ trace (analyze_invoice_reading ext file read_failure) ->
  read_failure = None
  /\ model request = MODEL_NAME ext
  /\ temperature request = 0
  /\ role <$> messages request = ["system"; "user"]
  /\ exists system_text user_content,
       message_content <$> messages request = [Text system_text; user_content]
       /\ ((content_type file = Some "application/pdf"
            /\ system_text = "You extract invoice data from text."
            /\ exists pages,
                 fitz_page_texts ext (file_contents file) = inr pages
                 /\ Py.strip (String.concat "" pages) <> ""
                 /\ user_content
                    = Text (prompt +:+ "

INVOICE TEXT:
" +:+ Py.strip (String.concat "" pages)))
           \/ (exists t, content_type file = Some t
                 /\ (t = "image/png" \/ t = "image/jpeg")
                 /\ system_text = "You extract invoice data from images."
                 /\ user_content
                    = Parts [TextPart prompt;
                             ImageUrlPart
                               ("data:" +:+ t +:+ ";base64,"
                                +:+ Py.b64encode (file_contents file))])).
Proof.
  intros Hin.
  destruct (request_of_trace ext file read_failure request Hin)
    as (Hrf & [(Hpdf & pages & Hp & Hne & ->) | (Hok & Hpdf & ->)]).
  - split; [exact Hrf |]. repeat split.
    eexists _, _. split; [reflexivity |]. left.
    unfold is_pdf in Hpdf. destruct (content_type file) as [t |] eqn:Ht;
      [| discriminate].
    apply String.eqb_eq in Hpdf. subst t.
    split; [reflexivity | split; [reflexivity |]]. exists pages.
    rewrite <- pages_text_concat. auto.
  - split; [exact Hrf |]. repeat split.
    eexists _, _. split; [reflexivity |]. right.
    apply content_type_allowed_spec in Hok.
    unfold is_pdf, image_request, content_type_str in *.
    destruct (content_type file) as [t |] eqn:Ht;
      [| destruct Hok as [H | [H | H]]; discriminate].
    exists t. split; [reflexivity |].
    split; [| split; reflexivity].
    destruct Hok as [H | [H | H]]; inversion H; subst; auto.
    discriminate.
Qed.

Lemma model_request_shape_pdf :
  ChatCreate (pdf_request (sample_ext [" Acme Ltd "; "
"] acme_text) "Acme Ltd")
    ∈ trace (analyze_invoice_reading (sample_ext [" Acme Ltd "; "
"] acme_text) pdf_file None)
  /\ model (pdf_request (sample_ext [" Acme Ltd "; "
"] acme_text) "Acme Ltd") = "sample-model"
  /\ temperature (pdf_request (sample_ext [" Acme Ltd "; "
"] acme_text) "Acme Ltd") = 0
  /\ role <$> messages (pdf_request (sample_ext [" Acme Ltd "; "
"] acme_text) "Acme Ltd") = ["system"; "user"].
Proof.
  assert (Hin : ChatCreate (pdf_request (sample_ext [" Acme Ltd "; "
"] acme_text) "Acme Ltd")
    ∈ trace (analyze_invoice_reading (sample_ext [" Acme Ltd "; "
"] acme_text) pdf_file None))
    by (apply list_elem_of_further, list_elem_of_further, list_elem_of_here).
  split; [exact Hin |].
  destruct (model_request_shape _ _ _ _ Hin) as (_ & Hm & Ht & Hr & _).
  split; [exact Hm | split; [exact Ht | exact Hr]].
Defined.

(** ** The validator, further *)

Lemma validate_optional_str_error (name : string) (default : option string)
    (v : option json) (e : list line_error) :
  validate_optional_str name default v = inl e -> e = [([name], string_type)].
Proof.
  unfold validate_optional_str, validate_str, fail.
  destruct v as [[] |]; intros H; inversion H; reflexivity.
Qed.

Lemma validate_total_amount_error (v : option json) (e : list line_error) :
  validate_total_amount v = inl e -> e <> [].
Proof.
  unfold validate_total_amount, fail.
  destruct v as [[] |]; cbn; intros H; inversion H; discriminate.
Qed.

Lemma validate_bool_error (name : string) (default : bool) (v : option json)
    (e : list line_error) :
  validate_bool name default v = inl e ->
  e = [([name], bool_type)] \/ e = [([name], bool_parsing)].
Proof.
  unfold validate_bool, fail. destruct v as [[| b | n | x | s | l | o] |];
    try (intros H; inversion H; auto; fail).
  - destruct (int_as_bool n); intros H; inversion H; auto.
  - destruct (float_as_int x) as [n |]; [destruct (int_as_bool n) |];
      intros H; inversion H; auto.
  - destruct (str_as_bool s); intros H; inversion H; auto.
Qed.

Lemma nonempty_app_l {A} (l1 l2 : list A) : l1 <> [] -> (l1 ++ l2)%list <> [].
Proof. destruct l1; [congruence | discriminate]. Qed.

Lemma model_validate_object (o : gmap string json) :
  match model_validate (JObject o) with
  | inr _ => field_errors o = []
  | inl errs => errs = field_errors o /\ errs <> []
  end.
Proof.
  unfold model_validate, field_errors. cbv zeta.
  destruct (validate_optional_str "vendor" None _) as [e1 | v1] eqn:E1.
  { split; [reflexivity |]. cbn [errors_of]. apply nonempty_app_l.
    rewrite (validate_optional_str_error _ _ _ _ E1). discriminate. }
  destruct (validate_optional_str "invoice_number" None _) as [e2 | v2] eqn:E2.
  { split; [reflexivity |]. cbn [errors_of app]. apply nonempty_app_l.
    rewrite (validate_optional_str_error _ _ _ _ E2). discriminate. }
  destruct (validate_optional_str "invoice_date" None _) as [e3 | v3] eqn:E3.
  { split; [reflexivity |]. cbn [errors_of app]. apply nonempty_app_l.
    rewrite (validate_optional_str_error _ _ _ _ E3). discriminate. }
  destruct (validate_optional_str "due_date" None _) as [e4 | v4] eqn:E4.
  { split; [reflexivity |]. cbn [errors_of app]. apply nonempty_app_l.
    rewrite (validate_optional_str_error _ _ _ _ E4). discriminate. }
  destruct (validate_total_amount _) as [e5 | v5] eqn:E5.
  { split; [reflexivity |]. cbn [errors_of app]. apply nonempty_app_l.
    exact (validate_total_amount_error _ _ E5). }
  destruct (validate_optional_str "currency" _ _) as [e6 | v6] eqn:E6.
  { split; [reflexivity |]. cbn [errors_of app]. apply nonempty_app_l.
    rewrite (validate_optional_str_error _ _ _ _ E6). discriminate. }
  destruct (validate_bool "valid" true _) as [e7 | v7] eqn:E7.
  { split; [reflexivity |]. cbn [errors_of app].
    destruct (validate_bool_error _ _ _ _ E7) as [-> | ->]; discriminate. }
  reflexivity.
Qed.

Lemma field_names_ne (k : string) :
  k ∉ FIELD_NAMES ->
  "vendor" <> k /\ "invoice_number" <> k /\ "invoice_date" <> k
  /\ "due_date" <> k /\ "total_amount" <> k /\ "currency" <> k
  /\ "valid" <> k.
Proof.
  unfold FIELD_NAMES. rewrite !not_elem_of_cons.
  intros (H1 & H2 & H3 & H4 & H5 & H6 & H7 & _). repeat split; congruence.
Qed.

(** Keys of the reply that are no field of [InvoiceData] are ignored: a
    reply with such a key added, changed or removed is validated to the
    same record or the same errors. *)
Theorem model_validate_ignores_other_keys (o : gmap string json) (k : string)
    (v : json) :
  k ∉ FIELD_NAMES ->
  model_validate (JObject (<[k := v]> o)) = model_validate (JObject o)
  /\ model_validate (JObject (delete k o)) = model_validate (JObject o).
Proof.
  intros Hk.
  destruct (field_names_ne k Hk) as (H1 & H2 & H3 & H4 & H5 & H6 & H7).
  unfold model_validate. cbv zeta. split.
  - rewrite !(lookup_insert_ne o k) by congruence. reflexivity.
  - rewrite !(lookup_delete_ne o k) by congruence. reflexivity.
Qed.

Lemma model_validate_ignores_other_keys_sample :
  ("confidence" ∉ FIELD_NAMES)
  /\ model_validate
       (JObject (<["confidence" := JFloat 0.5]>
                   (<["total_amount" := JInt 250]> ∅)))
     = model_validate (JObject (<["total_amount" := JInt 250]> ∅)).
Proof.
  assert (H : "confidence" ∉ FIELD_NAMES).
  { unfold FIELD_NAMES. rewrite !not_elem_of_cons.
    repeat split; try discriminate. apply not_elem_of_nil. }
  split; [exact H |].
  exact (proj1 (model_validate_ignores_other_keys _ "confidence" _ H)).
Defined.

(** For vendor, invoice_number, invoice_date and due_date a [null] in the
    reply is the same as a missing key. *)
Theorem null_is_absent (o : gmap string json) (k : string) :
  k ∈ NONE_DEFAULT_FIELDS ->
  model_validate (JObject (<[k := JNull]> o))
  = model_validate (JObject (delete k o)).
Proof.
  unfold NONE_DEFAULT_FIELDS. rewrite !elem_of_cons.
  intros [-> | [-> | [-> | [-> | H]]]]; [| | | | inversion H];
    unfold model_validate; cbv zeta;
    rewrite ?lookup_insert_eq, ?lookup_delete_eq;
    rewrite ?lookup_insert_ne, ?lookup_delete_ne by discriminate;
    reflexivity.
Qed.

Lemma null_is_absent_sample :
  ("vendor" ∈ NONE_DEFAULT_FIELDS)
  /\ model_validate
       (JObject (<["vendor" := JNull]> (<["total_amount" := JInt 250]> ∅)))
     = model_validate
         (JObject (delete "vendor" (<["total_amount" := JInt 250]> ∅))).
Proof.
  assert (H : "vendor" ∈ NONE_DEFAULT_FIELDS) by apply list_elem_of_here.
  split; [exact H |].
  exact (null_is_absent _ "vendor" H).
Defined.

(** A string field of the reply that holds anything but a string or
    [null] (a number, a boolean, a list, an object) makes the validator
    reject the whole reply, with a string-type error at that field: an
    invoice number given as the number 1001 is not converted. *)
Theorem non_string_field_rejected (o : gmap string json) (k : string)
    (v : json) :
  k ∈ STRING_FIELDS ->
  o !! k = Some v ->
  v <> JNull ->
  (forall s, v <> JStr s) ->
  exists errs,
    model_validate (JObject o) = inl errs /\ ([k], string_type) ∈ errs.
Proof.
  intros Hk Hv Hnull Hstr.
  assert (Hin : ([k], string_type) ∈ field_errors o).
  { assert (He : forall d, errors_of (validate_optional_str k d (o !! k))
                           = [([k], string_type)]).
    { intros d. rewrite Hv. unfold validate_optional_str, validate_str, fail.
      destruct v; try reflexivity; [congruence | exfalso; eapply Hstr; eauto]. }
    unfold field_errors, STRING_FIELDS in *. rewrite !elem_of_cons in Hk.
    destruct Hk as [-> | [-> | [-> | [-> | [-> | H]]]]]; [| | | | | inversion H];
      rewrite He; rewrite !elem_of_app; rewrite list_elem_of_singleton; tauto. }
  pose proof (model_validate_object o) as Ho.
  destruct (model_validate (JObject o)) as [errs | inv].
  - destruct Ho as [-> _]. eauto.
  - rewrite Ho in Hin. inversion Hin.
Qed.

Lemma non_string_field_rejected_sample :
  exists errs,
    model_validate
      (JObject (<["invoice_number" := JInt 1001]>
                  (<["total_amount" := JInt 250]> ∅))) = inl errs
    /\ (["invoice_number"], string_type) ∈ errs.
Proof.
  apply (non_string_field_rejected _ "invoice_number" (JInt 1001)).
  - apply list_elem_of_further, list_elem_of_here.
  - reflexivity.
  - discriminate.
  - discriminate.
Defined.

(** ** Replies, further *)

Lemma analyze_invoice_accepted (ext : externals) (file : UploadFile)
    (tr : list event) (response : ChatCompletion) (text : string) (j : json)
    (invoice : InvoiceData) :
  content_type_allowed file = true ->
  query_model ext file (file_contents file) = (tr, inr response) ->
  choices response !! 0%nat = Some (Some text) ->
  json_loads ext text = Some j ->
  model_validate j = inr invoice ->
  analyze_invoice ext file = (FileRead :: tr, inr (normalize_invoice invoice)).
Proof.
  intros Hok Hq Hc Hj Hv.
  rewrite (analyze_invoice_replied ext file tr response (Some text) Hok Hq Hc).
  unfold model_validate_json. rewrite Hj, Hv. reflexivity.
Qed.

(** A string [total_amount] is not examined: a reply whose only key is
    [total_amount] with a string, any string, the empty one and one that
    is no number included, is accepted, and the endpoint returns that
    string with vendor, invoice number and dates absent, currency "USD"
    and [valid] true. *)
Theorem string_amount_is_not_examined (ext : externals) (file : UploadFile)
    (tr : list event) (response : ChatCompletion) (text s : string) :
  content_type_allowed file = true ->
  query_model ext file (file_contents file) = (tr, inr response) ->
  choices response !! 0%nat = Some (Some text) ->
  json_loads ext text = Some (JObject {["total_amount" := JStr s]}) ->
  analyze_invoice ext file
  = (FileRead :: tr,
     inr {| vendor := None; invoice_number := None; invoice_date := None;
            due_date := None; total_amount := AStr s;
            currency := Some "USD"; valid := true |}).
Proof.
  intros Hok Hq Hc Hj.
  apply (analyze_invoice_accepted ext file tr response text _
           {| vendor := None; invoice_number := None; invoice_date := None;
              due_date := None; total_amount := AStr s;
              currency := Some "USD"; valid := true |} Hok Hq Hc Hj).
  unfold model_validate. cbv zeta.
  rewrite lookup_singleton_eq.
  rewrite !lookup_singleton_ne by discriminate. reflexivity.
Qed.

Lemma string_amount_is_not_examined_empty :
  outcome (analyze_invoice empty_amount_ext png_file)
  = inr {| vendor := None; invoice_number := None; invoice_date := None;
           due_date := None; total_amount := AStr "";
           currency := Some "USD"; valid := true |}.
Proof.
  rewrite (string_amount_is_not_examined empty_amount_ext png_file
             [ChatCreate (image_request empty_amount_ext png_file
                            (Py.b64encode (file_contents png_file)))]
             {| choices := [Some empty_amount_text] |} empty_amount_text ""
             eq_refl eq_refl eq_refl eq_refl).
  reflexivity.
Defined.

(** A reply that cannot be used is a 500: a completion without choices
    gives the detail "list index out of range"; a first choice without
    content, and a first choice whose content is no JSON, give the text of
    the validator's error. Choices after the first are not looked at. *)
Theorem unusable_reply_is_500 (ext : externals) (file : UploadFile)
    (tr : list event) (response : ChatCompletion) :
  content_type_allowed file = true ->
  query_model ext file (file_contents file) = (tr, inr response) ->
  match choices response with
  | [] =>
      analyze_invoice ext file
      = (FileRead :: tr, inl (HTTPException 500 "list index out of range"))
  | None :: _ =>
      analyze_invoice ext file
      = (FileRead :: tr,
         inl (HTTPException 500 (validation_error_str ext [([], json_type)])))
  | Some text :: _ =>
      match json_loads ext text with
      | None =>
          analyze_invoice ext file
          = (FileRead :: tr,
             inl (HTTPException 500
                    (validation_error_str ext [([], json_invalid)])))
      | Some j =>
          outcome (analyze_invoice ext file)
          = match model_validate j with
            | inl errs => inl (HTTPException 500 (validation_error_str ext errs))
            | inr invoice => inr (normalize_invoice invoice)
            end
      end
  end.
Proof.
  intros Hok Hq.
  destruct (choices response) as [| [text |] rest] eqn:Hc.
  - apply (analyze_invoice_failed ext file tr
             (OtherException "list index out of range") Hok).
    unfold try_body. rewrite Hq. cbn [bind].
    unfold first_choice_content. rewrite Hc. cbn. rewrite app_nil_r.
    reflexivity.
  - assert (Hc0 : choices response !! 0%nat = Some (Some text))
      by (rewrite Hc; reflexivity).
    rewrite (analyze_invoice_replied ext file tr response _ Hok Hq Hc0).
    unfold model_validate_json.
    destruct (json_loads ext text) as [j |]; [| reflexivity].
    destruct (model_validate j); reflexivity.
  - assert (Hc0 : choices response !! 0%nat = Some None)
      by (rewrite Hc; reflexivity).
    rewrite (analyze_invoice_replied ext file tr response _ Hok Hq Hc0).
    reflexivity.
Qed.

Lemma unusable_reply_is_500_no_choices :
  analyze_invoice (choices_ext []) png_file
  = ([FileRead;
      ChatCreate (image_request (choices_ext []) png_file
                    (Py.b64encode (file_contents png_file)))],
     inl (HTTPException 500 "list index out of range")).
Proof.
  exact (unusable_reply_is_500 (choices_ext []) png_file
           [ChatCreate (image_request (choices_ext []) png_file
                          (Py.b64encode (file_contents png_file)))]
           {| choices := [] |} eq_refl eq_refl).
Defined.

(** The record returned is what the model said: every optional string
    field is the string of the reply, and absent when the reply has
    [null] or, except for currency, no such key; [valid] is the boolean of
    the reply, and true when the key is missing. The handler corrects
    nothing: a reply with [valid] true and no vendor is returned as it
    is. *)
Theorem returned_fields_as_replied (ext : externals) (file : UploadFile)
    (tr tr' : list event) (response : ChatCompletion) (text : string)
    (j : json) (r : InvoiceData) :
  query_model ext file (file_contents file) = (tr, inr response) ->
  choices response !! 0%nat = Some (Some text) ->
  json_loads ext text = Some j ->
  analyze_invoice ext file = (tr', inr r) ->
  let field k :=
    match json_field j k with
    | Some (JStr s) => Some s
    | _ => None
    end in
  vendor r = field "vendor"
  /\ invoice_number r = field "invoice_number"
  /\ invoice_date r = field "invoice_date"
  /\ due_date r = field "due_date"
  /\ match json_field j "valid" with
     | None => valid r = true
     | Some (JBool b) => valid r = b
     | Some _ => True
     end.
Proof.
  intros Hq Hc Hj Hok.
  destruct (analyze_invoice_reply_ok_inv ext file tr tr' response text j r
              Hq Hc Hj Hok) as (invoice & Hv & ->).
  assert (Hf : vendor (normalize_invoice invoice) = vendor invoice
               /\ invoice_number (normalize_invoice invoice)
                  = invoice_number invoice
               /\ invoice_date (normalize_invoice invoice) = invoice_date invoice
               /\ due_date (normalize_invoice invoice) = due_date invoice
               /\ valid (normalize_invoice invoice) = valid invoice)
    by (unfold normalize_invoice; destruct (total_amount invoice);
        repeat split; reflexivity).
  destruct Hf as (-> & -> & -> & -> & ->).
  apply model_validate_ok_inv in Hv
    as (o & -> & H1 & H2 & H3 & H4 & _ & _ & H7).
  cbv zeta. cbn [json_field].
  unfold validate_optional_str, validate_str, fail in H1, H2, H3, H4.
  unfold validate_bool in H7.
  repeat split.
  - destruct (o !! "vendor") as [[] |]; inversion H1; reflexivity.
  - destruct (o !! "invoice_number") as [[] |]; inversion H2; reflexivity.
  - destruct (o !! "invoice_date") as [[] |]; inversion H3; reflexivity.
  - destruct (o !! "due_date") as [[] |]; inversion H4; reflexivity.
  - destruct (o !! "valid") as [[] |]; try exact I; inversion H7; reflexivity.
Qed.

Lemma returned_fields_as_replied_sample :
  exists tr r,
    analyze_invoice (sample_ext [] bare_text) png_file = (tr, inr r)
    /\ vendor r = None /\ valid r = false.
Proof.
  eexists _, _. split; [reflexivity |].
  destruct (returned_fields_as_replied (sample_ext [] bare_text) png_file
              _ _ {| choices := [Some bare_text] |} bare_text bare_json _
              eq_refl eq_refl eq_refl eq_refl) as (Hv & _ & _ & _ & Hb).
  split; [exact Hv | exact Hb].
Defined.

(** ** Number formatting, further *)

Lemma round_half_even_unique (num den k : Z) :
  0 < den -> 2 * Z.abs (num - k * den) < den ->
  Py.round_half_even num den = k.
Proof.
  intros Hden Hk. unfold Py.round_half_even.
  pose proof (Z.div_mod num den ltac:(lia)) as Hdm.
  pose proof (Z.mod_pos_bound num den Hden) as Hr.
  set (q := num / den) in *. set (r := num mod den) in *.
  assert (Hq : q = k \/ q = k - 1) by nia.
  destruct (Z.compare_spec (2 * r) den) as [Heq | Hlt | Hgt].
  - exfalso. nia.
  - destruct Hq as [H | H]; [exact H | exfalso; nia].
  - destruct Hq as [H | H]; [exfalso; nia | lia].
Qed.

(** A float that lies nearer than half a hundredth to [k] hundredths is
    printed as [k] hundredths: an amount that the model wrote with two
    decimals, and that was read as the float next to it, comes back with
    the digits it had. *)
Theorem format_2f_recovers_hundredths (x : float) (s : bool) (m : positive)
    (e k : Z) :
  Prim2SF x = S754_finite s m e ->
  2 * Z.abs (100 * Zpos m * 2 ^ Z.max 0 e - k * 2 ^ Z.max 0 (- e))
  < 2 ^ Z.max 0 (- e) ->
  Py.format_2f x = Py.sign_prefix s +:+ Py.fixed2 k.
Proof.
  intros Hx Hk. unfold Py.format_2f. rewrite Hx. f_equal. f_equal.
  unfold Py.hundredths. destruct (Z.leb_spec 0 e) as [Hpos | Hneg].
  - rewrite (Z.max_l 0 (- e)) in Hk by lia. rewrite (Z.max_r 0 e) in Hk by lia.
    change (2 ^ 0) with 1 in Hk. lia.
  - rewrite (Z.max_r 0 (- e)) in Hk by lia. rewrite (Z.max_l 0 e) in Hk by lia.
    change (2 ^ 0) with 1 in Hk. rewrite Z.mul_1_r in Hk.
    apply round_half_even_unique; [apply Z.pow_pos_nonneg; lia | exact Hk].
Qed.

Lemma format_2f_recovers_hundredths_1999 :
  Py.format_2f 19.99 = "19.99".
Proof.
  exact (format_2f_recovers_hundredths 19.99 false 5626684784446013 (-48) 1999
           eq_refl eq_refl).
Defined.

(** ** Base64 *)

Lemma b64_index_char (i : N) : (i < 64)%N -> b64_index (Py.b64_char i) = i.
Proof.
  intros Hi.
  assert (Hall : forallb (fun n => N.eqb (b64_index (Py.b64_char (N.of_nat n)))
                                     (N.of_nat n)) (seq 0 64) = true)
    by (vm_compute; reflexivity).
  rewrite forallb_forall in Hall.
  specialize (Hall (N.to_nat i)). rewrite N2Nat.id in Hall.
  apply N.eqb_eq, Hall, in_seq. lia.
Qed.

Lemma b64_char_inj (i j : N) :
  (i < 64)%N -> (j < 64)%N -> Py.b64_char i = Py.b64_char j -> i = j.
Proof.
  intros Hi Hj H. rewrite <- (b64_index_char i Hi), <- (b64_index_char j Hj), H.
  reflexivity.
Qed.

Lemma b64_char_not_pad (i : N) : (i < 64)%N -> Py.b64_char i <> "="%char.
Proof.
  intros Hi H. pose proof (b64_index_char i Hi) as Hx. rewrite H in Hx.
  vm_compute in Hx. subst i. discriminate.
Qed.

Lemma sextets_inj (n1 n2 : N) :
  (n1 < 16777216)%N -> (n2 < 16777216)%N ->
  Py.b64_char (n1 / 262144) = Py.b64_char (n2 / 262144) ->
  Py.b64_char (n1 / 4096 mod 64) = Py.b64_char (n2 / 4096 mod 64) ->
  (n1 / 64 mod 64 = n2 / 64 mod 64)%N ->
  (n1 mod 64 = n2 mod 64)%N ->
  n1 = n2.
Proof.
  intros H1 H2 Ha Hb Hc Hd.
  apply b64_char_inj in Ha;
    [| apply N.Div0.div_lt_upper_bound; lia
     | apply N.Div0.div_lt_upper_bound; lia ].
  apply b64_char_inj in Hb; [| apply N.mod_lt; lia | apply N.mod_lt; lia].
  pose proof (N.div_mod n1 64 ltac:(lia)).
  pose proof (N.div_mod n2 64 ltac:(lia)).
  pose proof (N.div_mod (n1 / 64) 64 ltac:(lia)) as E1.
  pose proof (N.div_mod (n2 / 64) 64 ltac:(lia)) as E2.
  pose proof (N.div_mod (n1 / 4096) 64 ltac:(lia)) as F1.
  pose proof (N.div_mod (n2 / 4096) 64 ltac:(lia)) as F2.
  rewrite N.Div0.div_div in E1, E2, F1, F2.
  change (64 * 64)%N with 4096%N in *. change (4096 * 64)%N with 262144%N in *.
  lia.
Qed.

Lemma byte_to_N_inj (x y : byte) : Byte.to_N x = Byte.to_N y -> x = y.
Proof.
  intros H. pose proof (Byte.of_to_N x) as Hx. rewrite H, Byte.of_to_N in Hx.
  congruence.
Qed.

Lemma byte_lt (x : byte) : (Byte.to_N x < 256)%N.
Proof. pose proof (Byte.to_N_bounded x). lia. Qed.

Lemma low_sextets_of_one (x : N) :
  ((x * 65536) / 64 mod 64 = 0 /\ (x * 65536) mod 64 = 0)%N.
Proof.
  replace (x * 65536)%N with (x * 1024 * 64)%N by lia.
  rewrite N.div_mul by lia. rewrite N.Div0.mod_mul.
  replace (x * 1024)%N with (x * 16 * 64)%N by lia.
  rewrite N.Div0.mod_mul. split; reflexivity.
Qed.

Lemma low_sextet_of_two (x y : N) :
  ((x * 65536 + y * 256) mod 64 = 0)%N.
Proof.
  replace (x * 65536 + y * 256)%N with ((x * 1024 + y * 4) * 64)%N by lia.
  apply N.Div0.mod_mul.
Qed.

Ltac b64_pad_absurd :=
  match goal with
  | H : "="%char = Py.b64_char ?i |- _ =>
      exfalso; symmetry in H; apply (b64_char_not_pad i);
      [apply N.mod_lt; lia | exact H]
  | H : Py.b64_char ?i = "="%char |- _ =>
      exfalso; apply (b64_char_not_pad i); [apply N.mod_lt; lia | exact H]
  end.

Ltac b64_sextet H :=
  apply b64_char_inj in H; [| apply N.mod_lt; lia | apply N.mod_lt; lia].

Lemma b64encode_inj_upto (n : nat) (b1 b2 : Py.bytes) :
  (length b1 <= n)%nat -> Py.b64encode b1 = Py.b64encode b2 -> b1 = b2.
Proof.
  revert b1 b2. induction n as [| n IH]; intros b1 b2 Hlen H.
  - destruct b1; [| simpl in Hlen; lia].
    destruct b2 as [| x2 [| y2 [| z2 r2]]]; [reflexivity | | |];
      cbn [Py.b64encode] in H; discriminate.
  - destruct b1 as [| x1 [| y1 [| z1 r1]]];
      destruct b2 as [| x2 [| y2 [| z2 r2]]];
      cbn [Py.b64encode] in H; try discriminate; try reflexivity;
      pose proof (byte_lt x1); pose proof (byte_lt x2).
    + injection H as Ha Hb.
      destruct (low_sextets_of_one (Byte.to_N x1)) as [Hc1 Hd1].
      destruct (low_sextets_of_one (Byte.to_N x2)) as [Hc2 Hd2].
      assert (Hn : (Byte.to_N x1 * 65536 = Byte.to_N x2 * 65536)%N)
        by (apply sextets_inj; try assumption; try lia; congruence).
      f_equal. apply byte_to_N_inj. lia.
    + injection H as Ha Hb Hc. b64_pad_absurd.
    + injection H as Ha Hb Hc. b64_pad_absurd.
    + injection H as Ha Hb Hc. b64_pad_absurd.
    + pose proof (byte_lt y1); pose proof (byte_lt y2).
      injection H as Ha Hb Hc. b64_sextet Hc.
      pose proof (low_sextet_of_two (Byte.to_N x1) (Byte.to_N y1)) as Hd1.
      pose proof (low_sextet_of_two (Byte.to_N x2) (Byte.to_N y2)) as Hd2.
      assert (Hn : (Byte.to_N x1 * 65536 + Byte.to_N y1 * 256
                    = Byte.to_N x2 * 65536 + Byte.to_N y2 * 256)%N)
        by (apply sextets_inj; try assumption; try lia; congruence).
      assert (Byte.to_N x1 = Byte.to_N x2 /\ Byte.to_N y1 = Byte.to_N y2)
        as [Hx Hy] by lia.
      apply byte_to_N_inj in Hx, Hy. subst. reflexivity.
    + injection H as Ha Hb Hc Hd. b64_pad_absurd.
    + injection H as Ha Hb Hc Hd. b64_pad_absurd.
    + injection H as Ha Hb Hc Hd. b64_pad_absurd.
    + pose proof (byte_lt y1); pose proof (byte_lt y2).
      pose proof (byte_lt z1); pose proof (byte_lt z2).
      injection H as Ha Hb Hc Hd Hr.
      b64_sextet Hc. b64_sextet Hd.
      assert (Hn : (Byte.to_N x1 * 65536 + Byte.to_N y1 * 256 + Byte.to_N z1
                    = Byte.to_N x2 * 65536 + Byte.to_N y2 * 256 + Byte.to_N z2)%N)
        by (apply sextets_inj; try assumption; lia).
      assert (Byte.to_N x1 = Byte.to_N x2 /\ Byte.to_N y1 = Byte.to_N y2
              /\ Byte.to_N z1 = Byte.to_N z2) as (Hx & Hy & Hz) by lia.
      apply byte_to_N_inj in Hx, Hy, Hz. subst.
      f_equal. f_equal. f_equal. apply IH; [simpl in Hlen; lia | exact Hr].
Qed.

Lemma b64encode_length_upto (n : nat) (b : Py.bytes) :
  (length b <= n)%nat ->
  String.length (Py.b64encode b) = (4 * ((length b + 2) / 3))%nat.
Proof.
  revert b. induction n as [| n IH]; intros b Hlen.
  - destruct b; [reflexivity | simpl in Hlen; lia].
  - destruct b as [| x [| y [| z r]]]; try reflexivity.
    cbn [Py.b64encode String.length length].
    rewrite IH by (simpl in Hlen; lia).
    replace (S (S (S (length r))) + 2)%nat with (length r + 2 + 1 * 3)%nat
      by lia.
    rewrite Nat.div_add by lia. lia.
Qed.

(** The base64 text of the file: four characters for every three bytes,
    the last group padded, and different bytes never give the same text;
    so the data URI sent to the model determines the bytes of the
    uploaded image. *)
Theorem b64encode_length_injective (b1 b2 : Py.bytes) :
  String.length (Py.b64encode b1) = (4 * ((length b1 + 2) / 3))%nat
  /\ (Py.b64encode b1 = Py.b64encode b2 -> b1 = b2)
  /\ (forall ext file,
        image_request ext file (Py.b64encode b1)
        = image_request ext file (Py.b64encode b2) -> b1 = b2).
Proof.
  split; [apply (b64encode_length_upto (length b1)); lia |].
  assert (Hinj : Py.b64encode b1 = Py.b64encode b2 -> b1 = b2)
    by (apply (b64encode_inj_upto (length b1)); lia).
  split; [exact Hinj |].
  intros ext file H. apply Hinj.
  unfold image_request in H. injection H as H.
  change (content_type_str file +:+ (";base64," +:+ Py.b64encode b1)
          = content_type_str file +:+ (";base64," +:+ Py.b64encode b2)) in H.
  apply (String.app_inj (content_type_str file)) in H.
  apply (String.app_inj ";base64,") in H. exact H.
Qed.

Lemma b64encode_length_injective_sample :
  String.length (Py.b64encode (file_contents png_file)) = 8%nat
  /\ (Py.b64encode (file_contents png_file)
      = Py.b64encode [x89; x50; x4e; x47]%byte ->
      file_contents png_file = [x89; x50; x4e; x47]%byte).
Proof.
  destruct (b64encode_length_injective (file_contents png_file)
              [x89; x50; x4e; x47]%byte) as (Hl & Hi & _).
  split; [exact Hl | exact Hi].
Defined.

(** ** The two-decimal reading is strict *)

(** A whole part with leading zeros, the odd neighbour at a tie and a
    missing sign are no two-decimal writing of the float. *)
Example two_decimal_places_strict :
  two_decimal_places 0.5 "0.50" /\ ~ two_decimal_places 0.5 "000.50"
  /\ two_decimal_places 0.125 "0.12" /\ ~ two_decimal_places 0.125 "0.13"
  /\ two_decimal_places (-1234.5) "-1234.50"
  /\ ~ two_decimal_places (-1234.5) "1234.50".
Proof.
  pose proof (format_2f_two_decimal_places 0.5) as H1.
  pose proof (format_2f_two_decimal_places 0.125) as H2.
  pose proof (format_2f_two_decimal_places (-1234.5)) as H3.
  repeat split; try assumption; intros H.
  - pose proof (two_decimal_places_unique _ _ _ H H1). discriminate.
  - pose proof (two_decimal_places_unique _ _ _ H H2). discriminate.
  - pose proof (two_decimal_places_unique _ _ _ H H3). discriminate.
Qed.

(** The white-space characters, byte for byte as Python encodes them. *)
Example space_tokens_bytes :
  map (fun t => map N_of_ascii (list_ascii_of_string t)) Py.SPACE_TOKENS
  = [[9]; [10]; [11]; [12]; [13]; [28]; [29]; [30]; [31]; [32];
     [194; 133]; [194; 160]; [225; 154; 128];
     [226; 128; 128]; [226; 128; 129]; [226; 128; 130]; [226; 128; 131];
     [226; 128; 132]; [226; 128; 133]; [226; 128; 134]; [226; 128; 135];
     [226; 128; 136]; [226; 128; 137]; [226; 128; 138];
     [226; 128; 168]; [226; 128; 169]; [226; 128; 175]; [226; 129; 159];
     [227; 128; 128]]%N.
Proof. vm_compute. reflexivity. Qed.
